(** * IoT ECG backend: the device session registry and the ECG classifier

    A shallow embedding of [backend/main.py] (the FastAPI handlers over the
    global dictionary [device_data]) and of [backend/ecg_processing.py]
    (the z-score classifier), with the properties the specification states
    about them, and of the two pieces of [dashboard/app.py] that decide
    something: what the polling loop does with an answer of the backend,
    and the clipping of the features handed to the model.

    Conventions of the embedding:
    - Python floats are IEEE 754 binary64 numbers, here the primitive
      [float] of Rocq with the same arithmetic;
    - a Python [dict] with string keys is a [gmap string _]; the payload of
      a request is a JSON object; the order in which a dictionary is
      iterated is not modelled, and no property here depends on it;
    - a handler reads the clock ([time.time()]) at most once; the value it
      reads is the argument [now];
    - a handler that mutates [device_data] takes the registry and returns
      its response together with the new registry. *)

From Stdlib Require Import ZArith Uint63.
From Stdlib Require Import Floats.PrimFloat Floats.SpecFloat Floats.FloatOps
  Floats.FloatAxioms.
From stdpp Require Import base option list strings gmap fin_maps.

Local Open Scope string_scope.

(** ** JSON values and Python dictionaries *)

#[warnings="-register-all"]
Inductive json : Type :=
| JNull
| JBool (b : bool)
| JInt (n : Z)
| JFloat (x : float)
| JStr (s : string)
| JList (l : list json)
| JDict (d : gmap string json).

(** A request body or a response: a JSON object. *)
Abbreviation pydict := (gmap string json).

(** The entries of [device_data]: every entry the handlers write has the
    same five keys. *)
Record DeviceInfo : Type := mkInfo {
  latest : pydict;
  ready : bool;
  last_update : float;
  status : string;
  collecting : bool
}.

(** The global [device_data]. *)
Abbreviation registry := (gmap string DeviceInfo).

(** [device_data = {}] when the module is loaded. *)
Definition device_data0 : registry := ∅.

(** ** The handlers that do not validate *)

(** [GET /start/{esp_id}]: the entry is overwritten whatever it was. *)
Definition start_measurement (esp_id : string) (now : float) (reg : registry)
  : pydict * registry :=
  let reg' := <[esp_id := {| latest := ∅;
                             ready := false;
                             last_update := now;
                             status := "collecting";
                             collecting := true |}]> reg in
  ({[ "status" := JStr "collecting";
      "esp_id" := JStr esp_id;
      "message" := JStr ("Measurement started for " ++ esp_id) ]},
   reg').

(** The threshold of the staleness test, in seconds. *)
Definition stale_after : float := 300%float.

(** [GET /latest/{esp_id}]: the branches are those of the source, in its
    order; [info.get("collecting", False)] is the field, which every entry
    has. Only the first branch writes to the registry. *)
Definition get_latest (esp_id : string) (now : float) (reg : registry)
  : pydict * registry :=
  match reg !! esp_id with
  | None =>
      let reg' := <[esp_id := {| latest := ∅;
                                 ready := false;
                                 last_update := now;
                                 status := "idle";
                                 collecting := false |}]> reg in
      ({[ "status" := JStr "idle";
          "message" := JStr "Device initialized, waiting for start signal" ]},
       reg')
  | Some info =>
      let time_since_update := (now - last_update info)%float in
      if PrimFloat.ltb stale_after time_since_update && ready info then
        ({[ "status" := JStr "stale";
            "message" := JStr "Data is too old, please start new measurement" ]},
         reg)
      else if collecting info then
        ({[ "status" := JStr "collecting";
            "message" := JStr "Start data collection now" ]},
         reg)
      else if negb (ready info) && negb (collecting info) then
        ({[ "status" := JStr "idle";
            "message" := JStr "Waiting for start signal..." ]},
         reg)
      else if ready info then
        let response := latest info in
        (<["status" := JStr "ready"]> response, reg)
      else
        ({[ "status" := JStr "idle"; "message" := JStr "Waiting..." ]}, reg)
  end.

(** One item of the list [GET /devices] returns. The two time fields hold
    the numbers the source then renders as text ([isoformat], ["%.1fs"]). *)
Record DeviceSummary : Type := mkSummary {
  sum_esp_id : string;
  sum_status : string;
  sum_ready : bool;
  sum_collecting : bool;
  sum_last_update : float;
  sum_seconds_ago : float;
  sum_has_data : bool
}.

(** [bool(d)] of a dictionary. *)
Definition dict_truthy (d : pydict) : bool := negb (Nat.eqb (size d) 0).

Definition device_summary (current_time : float) (item : string * DeviceInfo)
  : DeviceSummary :=
  let '(esp_id, info) := item in
  {| sum_esp_id := esp_id;
     sum_status := status info;
     sum_ready := ready info;
     sum_collecting := collecting info;
     sum_last_update := last_update info;
     sum_seconds_ago := (current_time - last_update info)%float;
     sum_has_data := dict_truthy (latest info) |}.

(** [GET /devices]: ["total_devices"] and ["devices"]. The registry is
    read, never written. *)
Definition list_devices (now : float) (reg : registry)
  : nat * list DeviceSummary :=
  let devices := device_summary now <$> map_to_list reg in
  (length devices, devices).

(** [DELETE /device/{esp_id}]. *)
Definition clear_device (esp_id : string) (reg : registry)
  : pydict * registry :=
  match reg !! esp_id with
  | Some _ =>
      ({[ "status" := JStr "cleared"; "esp_id" := JStr esp_id ]},
       delete esp_id reg)
  | None =>
      ({[ "status" := JStr "not_found"; "esp_id" := JStr esp_id ]}, reg)
  end.

(** [DELETE /devices/clear]. *)
Definition clear_all_devices (reg : registry) : pydict * registry :=
  let count := size reg in
  ({[ "status" := JStr "cleared"; "count" := JInt (Z.of_nat count) ]}, ∅).

(** ** The data model [ECGData] and its validation

    Building an [ECGData] from the items of the payload runs the validators
    of the model's five fields.
    How a JSON value is coerced to a [float], an [int] or a [str] is the
    validation library's business; the three scalar validators are
    parameters of the development. *)

Record ECGData : Type := mkECGData {
  hr : float;
  spo2 : float;
  ecg : list float;
  rest_ecg : option Z;
  timestamp : option string
}.

(** What went wrong with one field. *)
Inductive field_error : Type :=
| field_required
| type_error.

(** A validation error lists the offending fields, in declaration order. *)
Definition ValidationError : Type := list (string * field_error).

Inductive HTTPException : Type :=
| mkHTTPException (status_code : Z) (detail : string).

Section Backend.

Variable float_validator : json → option float.
Variable int_validator : json → option Z.
Variable str_validator : json → option string.
(** [str(e)] of a validation error. *)
Variable str_exc : ValidationError → string.

(** [List[float]]: a JSON array each of whose items passes the [float]
    validator. *)
Definition list_float_validator (v : json) : option (list float) :=
  match v with
  | JList l => mapM float_validator l
  | _ => None
  end.

(** [Optional[T]]: [None] is accepted as it is. *)
Definition optional_validator {T} (validator : json → option T) (v : json)
  : option (option T) :=
  match v with
  | JNull => Some None
  | _ => Some <$> validator v
  end.

(** A required field: absent, rejected or accepted. *)
Definition required_field {T} (validator : json → option T)
    (payload : pydict) (name : string) : field_error + T :=
  match payload !! name with
  | None => inl field_required
  | Some v =>
      match validator v with
      | None => inl type_error
      | Some x => inr x
      end
  end.

(** A field with a default: absent means the default. *)
Definition default_field {T} (validator : json → option T) (default : T)
    (payload : pydict) (name : string) : field_error + T :=
  match payload !! name with
  | None => inr default
  | Some v =>
      match validator v with
      | None => inl type_error
      | Some x => inr x
      end
  end.

Definition field_errors {T} (name : string) (r : field_error + T)
  : ValidationError :=
  match r with
  | inl e => [(name, e)]
  | inr _ => []
  end.

(** The constructor of [ECGData], called on the items of the payload: every
    field is validated, keys the model does not
    declare are ignored, and the errors of all fields are reported
    together. *)
Definition ECGData_validate (payload : pydict) : ValidationError + ECGData :=
  let r_hr := required_field float_validator payload "hr" in
  let r_spo2 := required_field float_validator payload "spo2" in
  let r_ecg := required_field list_float_validator payload "ecg" in
  let r_rest := default_field (optional_validator int_validator) (Some 0%Z)
                  payload "rest_ecg" in
  let r_ts := default_field (optional_validator str_validator) None
                payload "timestamp" in
  match r_hr, r_spo2, r_ecg, r_rest, r_ts with
  | inr h, inr s, inr e, inr r, inr t => inr (mkECGData h s e r t)
  | _, _, _, _, _ =>
      inl (field_errors "hr" r_hr ++ field_errors "spo2" r_spo2
           ++ field_errors "ecg" r_ecg ++ field_errors "rest_ecg" r_rest
           ++ field_errors "timestamp" r_ts)%list
  end.

(** [POST /data/{esp_id}]: the entry is written only after the payload has
    passed validation; the [except] branch leaves [device_data] alone and
    raises the HTTP error 400. *)
Definition receive_data (esp_id : string) (payload : pydict) (now : float)
    (reg : registry) : (HTTPException + pydict) * registry :=
  match ECGData_validate payload with
  | inr ecg_data =>
      let reg' := <[esp_id := {| latest := payload;
                                 ready := true;
                                 last_update := now;
                                 status := "ready";
                                 collecting := false |}]> reg in
      (inr {[ "status" := JStr "ok";
              "message" := JStr "Data received successfully";
              "esp_id" := JStr esp_id ]},
       reg')
  | inl e =>
      (inl (mkHTTPException 400
              ("Invalid data format: " ++ str_exc e)), reg)
  end.

End Backend.

(** ** Observing responses *)

(** The ["status"] entry of a response. *)
Definition response_status (response : pydict) : option string :=
  match response !! "status" with
  | Some (JStr s) => Some s
  | _ => None
  end.

(** The entry a successful upload writes. *)
Definition ready_info (payload : pydict) (now : float) : DeviceInfo :=
  {| latest := payload; ready := true; last_update := now;
     status := "ready"; collecting := false |}.

(** The entry a start signal writes. *)
Definition collecting_info (now : float) : DeviceInfo :=
  {| latest := ∅; ready := false; last_update := now;
     status := "collecting"; collecting := true |}.

(** The entry the first poll of an unknown device writes. *)
Definition idle_info (now : float) : DeviceInfo :=
  {| latest := ∅; ready := false; last_update := now;
     status := "idle"; collecting := false |}.

(** What the model accepts as the list of samples: an array whose items the
    [float] validator accepts. The validator coerces, so that an item need
    not be a JSON number: a numeric string counts when the validator reads
    it. *)
Definition sequence_of_numbers (float_validator : json → option float)
    (v : json) : Prop :=
  ∃ l, v = JList l ∧ Forall (λ x, is_Some (float_validator x)) l.

(** ** Sequences of requests *)

Inductive request : Type :=
| StartSignal (esp_id : string)
| Upload (esp_id : string) (payload : pydict)
| Poll (esp_id : string)
| ListSessions
| Clear (esp_id : string)
| ClearAll.

Section Traces.

Variable float_validator : json → option float.
Variable int_validator : json → option Z.
Variable str_validator : json → option string.
Variable str_exc : ValidationError → string.

Definition valid_payload (payload : pydict) : bool :=
  match ECGData_validate float_validator int_validator str_validator payload with
  | inr _ => true
  | inl _ => false
  end.

(** The registry after one request served at time [now]. *)
Definition handle (reg : registry) (event : float * request) : registry :=
  let '(now, r) := event in
  match r with
  | StartSignal esp_id => (start_measurement esp_id now reg).2
  | Upload esp_id payload =>
      (receive_data float_validator int_validator str_validator str_exc
         esp_id payload now reg).2
  | Poll esp_id => (get_latest esp_id now reg).2
  | ListSessions => reg
  | Clear esp_id => (clear_device esp_id reg).2
  | ClearAll => (clear_all_devices reg).2
  end.

(** The registry after a sequence of requests, the oldest first. *)
Definition run (trace : list (float * request)) (reg : registry) : registry :=
  foldl handle reg trace.

(** History of one device: has an upload been accepted for [esp_id] since
    the last start signal for it? *)
Definition note_upload (esp_id : string) (seen : bool)
    (event : float * request) : bool :=
  match event.2 with
  | StartSignal esp_id' => if decide (esp_id' = esp_id) then false else seen
  | Upload esp_id' payload =>
      if decide (esp_id' = esp_id) then valid_payload payload || seen
      else seen
  | _ => seen
  end.

Definition uploaded_since_collecting (esp_id : string)
    (trace : list (float * request)) : bool :=
  foldl (note_upload esp_id) false trace.

(** What holds of the entry of a device after any sequence of requests,
    [seen] being the history of the device's uploads. *)
Definition session_inv (seen : bool) (entry : option DeviceInfo) : Prop :=
  ∀ info, entry = Some info →
    (ready info = true →
       latest info ≠ ∅ ∧ collecting info = false ∧ seen = true) ∧
    (ready info = false → latest info = ∅).

End Traces.

(** ** [ecg_processing.py]

    The arrays are lists of binary64 numbers. The order in which
    [np.add.reduce] adds the items of an array is numpy's (pairwise, in
    blocks); the summation is a parameter, and the two left-to-right orders
    are given for concrete arrays. *)

Definition sum_left (a : list float) : float :=
  foldl PrimFloat.add 0%float a.

Definition sum_first (a : list float) : float :=
  match a with
  | [] => 0%float
  | x :: rest => (x + sum_left rest)%float
  end.

(** The length of an array as a float, exact below [2^53]. *)
Definition float_of_len (n : nat) : float :=
  PrimFloat.of_uint63 (Uint63.of_Z (Z.of_nat n)).

(** [np.maximum] on two floats: a NaN on the left wins. *)
Definition np_maximum (x y : float) : float :=
  if PrimFloat.leb y x || PrimFloat.is_nan x then x else y.

(** [np.max]: [None] is the [ValueError] an empty array raises. *)
Definition np_max (a : list float) : option float :=
  match a with
  | [] => None
  | x :: rest => Some (foldl np_maximum x rest)
  end.

Definition np_abs (a : list float) : list float := PrimFloat.abs <$> a.

Section Restecg.

Variable add_reduce : list float → float.

(** [np.mean]: the sum over the count. *)
Definition np_mean (a : list float) : float :=
  (add_reduce a / float_of_len (length a))%float.

(** [np.std] with [ddof = 0]: the root of the mean of the squared
    deviations from the mean. *)
Definition np_std (a : list float) : float :=
  let arrmean := np_mean a in
  let x := (λ v, v - arrmean)%float <$> a in
  let x := (λ v, v * v)%float <$> x in
  PrimFloat.sqrt (add_reduce x / float_of_len (length a))%float.

(** [process_ecg_to_restecg]; [None] would be an exception. *)
Definition process_ecg_to_restecg (ecg_values : list float) : option Z :=
  match ecg_values with
  | [] => Some 0%Z
  | _ =>
      let signal := ecg_values in
      let mean_val := np_mean signal in
      let std_val := np_std signal in
      let divisor :=
        if negb (PrimFloat.eqb std_val 0%float) then std_val else 1%float in
      let z := (λ v, (v - mean_val) / divisor)%float <$> signal in
      max_dev ← np_max (np_abs z);
      if PrimFloat.ltb max_dev 1%float then Some 0%Z
      else if PrimFloat.ltb max_dev 2%float then Some 1%Z
      else Some 2%Z
  end.

(** The same computation in the words of the specification. *)

Definition sample_mean (a : list float) : float :=
  (add_reduce a / float_of_len (length a))%float.

Definition population_std (a : list float) : float :=
  PrimFloat.sqrt
    (sample_mean ((λ v, (v - sample_mean a) * (v - sample_mean a))%float <$> a)).

Definition z_score (a : list float) (v : float) : float :=
  let sd := population_std a in
  ((v - sample_mean a) / (if PrimFloat.eqb sd 0%float then 1 else sd))%float.

Definition max_abs_z (a : list float) : option float :=
  np_max ((λ v, PrimFloat.abs (z_score a v)) <$> a).

Definition category (m : float) : Z :=
  if PrimFloat.ltb m 1%float then 0%Z
  else if PrimFloat.ltb m 2%float then 1%Z
  else 2%Z.

End Restecg.

(** ** Validators for concrete payloads

    The strictest reading of the three scalar types: a JSON number for
    [float] and [int], a JSON string for [str]. *)

Definition float_of_Z (n : Z) : float :=
  if (n <? 0)%Z then (- PrimFloat.of_uint63 (Uint63.of_Z (- n)))%float
  else PrimFloat.of_uint63 (Uint63.of_Z n).

Definition strict_float (v : json) : option float :=
  match v with
  | JFloat x => Some x
  | JInt n => Some (float_of_Z n)
  | _ => None
  end.

Definition strict_int (v : json) : option Z :=
  match v with
  | JInt n => Some n
  | _ => None
  end.

Definition strict_str (v : json) : option string :=
  match v with
  | JStr s => Some s
  | _ => None
  end.

(** A rendering of the error: the names of the offending fields. *)
Definition field_names (e : ValidationError) : string :=
  String.concat ", " (fst <$> e).

(** A reading a device could post. *)
Definition sample_payload : pydict :=
  {[ "hr" := JFloat 72%float;
     "spo2" := JFloat 98%float;
     "ecg" := JList [JFloat 1%float; JFloat 2%float; JFloat 1%float] ]}.

(** What validation makes of it. *)
Definition sample_ecg : ECGData :=
  {| hr := 72%float; spo2 := 98%float;
     ecg := [1%float; 2%float; 1%float];
     rest_ecg := Some 0%Z; timestamp := None |}.

(** A start signal at time 0 and the upload of the reading at time 10. *)
Definition sample_trace : list (float * request) :=
  [(0%float, StartSignal "esp32_01");
   (10%float, Upload "esp32_01" sample_payload)].

(** The binary64 number nearest to one tenth, which is what Python reads
    [0.1] as. *)
Definition one_tenth : float := 0x1.999999999999ap-4%float.

(** ** The remaining handlers of [main.py] *)

(** [GET /]: the health check. [timestamp] is the text of
    [datetime.now().isoformat()]. *)
Definition root (timestamp : string) (reg : registry) : pydict :=
  {[ "status" := JStr "online";
     "message" := JStr "IoT ECG Backend API";
     "active_devices" := JInt (Z.of_nat (size reg));
     "timestamp" := JStr timestamp ]}.

(** What [GET /debug/{esp_id}] shows of a registered device; as in the
    listing, the time fields hold the numbers. *)
Record DeviceDebug : Type := mkDebug {
  dbg_esp_id : string;
  dbg_ready : bool;
  dbg_status : string;
  dbg_collecting : bool;
  dbg_last_update : float;
  dbg_seconds_since_update : float;
  dbg_has_latest_data : bool;
  dbg_latest_data_keys : list string;
  dbg_data : pydict
}.

(** [GET /debug/{esp_id}]: an unknown device is reported, not created. *)
Definition debug_device (esp_id : string) (now : float) (reg : registry)
  : pydict + DeviceDebug :=
  match reg !! esp_id with
  | None => inl {[ "error" := JStr "Device not found" ]}
  | Some info =>
      inr {| dbg_esp_id := esp_id;
             dbg_ready := ready info;
             dbg_status := status info;
             dbg_collecting := collecting info;
             dbg_last_update := last_update info;
             dbg_seconds_since_update := (now - last_update info)%float;
             dbg_has_latest_data := dict_truthy (latest info);
             dbg_latest_data_keys := (map_to_list (latest info)).*1;
             dbg_data := latest info |}
  end.

(** ** [dashboard/app.py]: one turn of the polling loop

    What the loop does with the JSON object a poll returned. Where a
    property below feeds the loop with an answer of [get_latest], the
    transport is taken to deliver the object as the handler built it. *)

Inductive poll_outcome : Type :=
| StillCollecting
| NotRecognized
| DataReceived (data : pydict)
| WaitingForValidData
| PollingWarning.

(** Does the loop stop on this outcome ([break])? *)
Definition loop_breaks (o : poll_outcome) : bool :=
  match o with
  | NotRecognized | DataReceived _ => true
  | _ => false
  end.

(** [data.get("status") == s]. *)
Definition status_is (data : pydict) (s : string) : bool :=
  match data !! "status" with
  | Some (JStr s') => String.eqb s' s
  | _ => false
  end.

(** [v > 0] for a value read from JSON; [None] is the [TypeError] of a value
    that is not a number. A boolean is an integer in Python. *)
Definition json_gt_zero (v : json) : option bool :=
  match v with
  | JInt n => Some (0 <? n)%Z
  | JFloat x => Some (PrimFloat.ltb 0 x)
  | JBool b => Some b
  | _ => None
  end.

(** The body of the [try] in the loop; the exception is caught and the loop
    goes on with a warning. *)
Definition dashboard_poll (data : pydict) : poll_outcome :=
  if status_is data "waiting" then StillCollecting
  else if status_is data "unknown_id" then NotRecognized
  else
    match data !! "hr" with
    | None => WaitingForValidData
    | Some v =>
        match json_gt_zero v with
        | None => PollingWarning
        | Some true => DataReceived data
        | Some false => WaitingForValidData
        end
    end.

(** ** [dashboard/app.py]: the features of the prediction

    A number of Python, an [int] or a [float]. An [int] is compared with a
    [float] by value; the integers compared here are small constants, which
    the conversion represents exactly. *)

Inductive pynum : Type :=
| PInt (n : Z)
| PFloat (x : float).

Definition num_lt (a b : pynum) : bool :=
  match a, b with
  | PInt m, PInt n => (m <? n)%Z
  | PInt m, PFloat y => PrimFloat.ltb (float_of_Z m) y
  | PFloat x, PInt n => PrimFloat.ltb x (float_of_Z n)
  | PFloat x, PFloat y => PrimFloat.ltb x y
  end.

Definition num_le (a b : pynum) : bool :=
  match a, b with
  | PInt m, PInt n => (m <=? n)%Z
  | PInt m, PFloat y => PrimFloat.leb (float_of_Z m) y
  | PFloat x, PInt n => PrimFloat.leb x (float_of_Z n)
  | PFloat x, PFloat y => PrimFloat.leb x y
  end.

(** [min(a, b)]: the first argument unless the second is smaller. *)
Definition py_min (a b : pynum) : pynum := if num_lt b a then b else a.

(** [max(a, b)]: the first argument unless the second is greater. *)
Definition py_max (a b : pynum) : pynum := if num_lt a b then b else a.

(** A number read from JSON; [None] is the [TypeError] that [min] raises on
    anything else. *)
Definition json_num (v : json) : option pynum :=
  match v with
  | JInt n => Some (PInt n)
  | JFloat x => Some (PFloat x)
  | JBool b => Some (PInt (Z.b2z b))
  | _ => None
  end.

(** [latest_data.get(key, 0)]. *)
Definition get_or_zero (latest_data : pydict) (key : string) : json :=
  default (JInt 0) (latest_data !! key).

Record Features : Type := mkFeatures {
  feat_age : pynum;
  feat_sex : Z;
  feat_thalach : pynum;
  feat_restecg : pynum
}.

(** The row handed to the model: the inputs clipped to the ranges of the
    training data. [None] is an exception, which the handler reports. *)
Definition prepare_features (age : Z) (sex : string) (latest_data : pydict)
  : option Features :=
  rest_ecg ← json_num (get_or_zero latest_data "rest_ecg");
  let sex_val := if String.eqb sex "M" then 1%Z else 0%Z in
  hr ← json_num (get_or_zero latest_data "hr");
  let age_val := PInt age in
  let age_val_clipped := py_max (PInt 29) (py_min age_val (PInt 77)) in
  let hr_clipped := py_max (PInt 71) (py_min hr (PInt 202)) in
  let rest_ecg_clipped := py_max (PInt 0) (py_min rest_ecg (PInt 2)) in
  Some {| feat_age := age_val_clipped;
          feat_sex := sex_val;
          feat_thalach := hr_clipped;
          feat_restecg := rest_ecg_clipped |}.

(** ** Shapes of the entries and of the responses *)

(** The three shapes of an entry the handlers write. *)
Definition entry_shape (info : DeviceInfo) : Prop :=
  (status info = "idle" ∧ ready info = false ∧ collecting info = false ∧
   latest info = ∅) ∨
  (status info = "collecting" ∧ ready info = false ∧ collecting info = true ∧
   latest info = ∅) ∨
  (status info = "ready" ∧ ready info = true ∧ collecting info = false ∧
   latest info ≠ ∅).

(** The requests that write the entry of a device whatever it was. *)
Definition overwrites (esp_id : string) (valid : pydict → bool) (r : request)
  : bool :=
  match r with
  | StartSignal esp_id' => bool_decide (esp_id' = esp_id)
  | Upload esp_id' payload => bool_decide (esp_id' = esp_id) && valid payload
  | ClearAll => true
  | _ => false
  end.

(** The device a request is about, if it is about one. *)
Definition request_device (r : request) : option string :=
  match r with
  | StartSignal esp_id | Upload esp_id _ | Poll esp_id | Clear esp_id =>
      Some esp_id
  | ListSessions | ClearAll => None
  end.

(** A reading whose resting-ECG category is null. *)
Definition null_rest_payload : pydict :=
  <["rest_ecg" := JNull]> sample_payload.

Definition null_rest_ecg : ECGData :=
  {| hr := 72%float; spo2 := 98%float;
     ecg := [1%float; 2%float; 1%float];
     rest_ecg := None; timestamp := None |}.

(** ** The coercion of the validation library, on the values used here

    A JSON number proper. *)
Definition json_number (v : json) : bool :=
  match v with
  | JInt _ | JFloat _ => true
  | _ => false
  end.

(** An array of JSON numbers, the literal reading of a sequence of
    numbers. *)
Definition array_of_numbers (v : json) : bool :=
  match v with
  | JList l => forallb json_number l
  | _ => false
  end.

Definition digit_of (c : Ascii.ascii) : option Z :=
  let n := Z.of_nat (Ascii.nat_of_ascii c) in
  if (48 <=? n)%Z && (n <=? 57)%Z then Some (n - 48)%Z else None.

(** Is [c] the one character of the string [s]? *)
Definition is_char (c : Ascii.ascii) (s : string) : bool :=
  String.eqb (String c EmptyString) s.

(** The digits at the head of a string: their value after [acc], their
    number after [count], and what follows them. *)
Fixpoint read_digits (s : string) (acc : Z) (count : nat)
  : Z * nat * string :=
  match s with
  | String c rest =>
      match digit_of c with
      | Some d => read_digits rest (10 * acc + d)%Z (S count)
      | None => (acc, count, s)
      end
  | EmptyString => (acc, count, s)
  end.

(** [n / 10^k] for a numeral of at most 15 digits: both are binary64
    numbers, and their quotient, rounded once, is the float Python reads the
    numeral as. *)
Definition decimal_value (negative : bool) (n : Z) (k total : nat)
  : option float :=
  if (total <=? 15)%nat then
    let x := (float_of_Z n / float_of_Z (10 ^ Z.of_nat k))%float in
    Some (if negative then (- x)%float else x)
  else None.

(** [float(s)] for a plain decimal numeral: an optional sign, digits, and
    optionally a point followed by digits. Python reads more spellings
    (exponents, [inf], [nan], blanks, longer numerals); they are left out,
    so that what is accepted here is accepted there, with the same value. *)
Definition float_of_decimal (s : string) : option float :=
  let '(negative, body) :=
    match s with
    | String c rest =>
        if is_char c "-" then (true, rest)
        else if is_char c "+" then (false, rest)
        else (false, s)
    | EmptyString => (false, s)
    end in
  let '(i, ni, rest) := read_digits body 0 0 in
  match ni, rest with
  | O, _ => None
  | _, EmptyString => decimal_value negative i 0 ni
  | _, String c frac =>
      if is_char c "." then
        let '(n, total, rest') := read_digits frac i ni in
        match rest' with
        | EmptyString =>
            if (total =? ni)%nat then None
            else decimal_value negative n (total - ni) total
        | _ => None
        end
      else None
  end.

(** The [float] validator in its default, coercing mode, on JSON numbers
    that a binary64 holds exactly, booleans and plain decimal numerals. It
    accepts no more than the library does. *)
Definition lax_float (v : json) : option float :=
  match v with
  | JFloat x => Some x
  | JInt n =>
      if (Z.abs n <=? 2 ^ 53)%Z then Some (float_of_Z n) else None
  | JBool b => Some (if b then 1%float else 0%float)
  | JStr s => float_of_decimal s
  | _ => None
  end.

(** A reading whose samples are posted as text. *)
Definition strings_payload : pydict :=
  {[ "hr" := JFloat 72%float;
     "spo2" := JFloat 98%float;
     "ecg" := JList [JStr "1.5"; JStr "2"] ]}.

Definition strings_ecg : ECGData :=
  {| hr := 72%float; spo2 := 98%float;
     ecg := [1.5%float; 2%float];
     rest_ecg := Some 0%Z; timestamp := None |}.

(** A reading one of whose samples is null. *)
Definition null_sample_payload : pydict :=
  {[ "hr" := JFloat 72%float;
     "spo2" := JFloat 98%float;
     "ecg" := JList [JFloat 1%float; JNull] ]}.

(** ** From the backend to the dashboard

    The answer of a handler is sent as JSON, encoded with [allow_nan=False]:
    a float that is not finite cannot be encoded. *)
Fixpoint json_compliant (v : json) : bool :=
  match v with
  | JFloat x => PrimFloat.is_finite x
  | JList l => forallb json_compliant l
  | JDict d => map_fold (λ _ v' ok, json_compliant v' && ok) true d
  | _ => true
  end.

(** What [resp.json()] gives the dashboard: the object the handler built,
    or, when the encoding failed and the server answered 500 with a body
    that is not JSON, an exception. *)
Definition transport (response : pydict) : option pydict :=
  if json_compliant (JDict response) then Some response else None.

(** One turn of the polling loop, from the reply on; an exception is
    caught and the loop goes on with a warning. *)
Definition dashboard_turn (reply : option pydict) : poll_outcome :=
  match reply with
  | Some data => dashboard_poll data
  | None => PollingWarning
  end.

(** A reading whose heart rate is infinite. *)
Definition infinite_payload : pydict :=
  {[ "hr" := JFloat infinity;
     "spo2" := JFloat 98%float;
     "ecg" := JList [JFloat 1%float; JFloat 2%float; JFloat 1%float] ]}.

Definition infinite_ecg : ECGData :=
  {| hr := infinity; spo2 := 98%float;
     ecg := [1%float; 2%float; 1%float];
     rest_ecg := Some 0%Z; timestamp := None |}.

(** * Properties of the session registry *)

(** ** What the responses say *)

Lemma response_status_insert (s : string) (response : pydict) :
  response_status (<["status" := JStr s]> response) = Some s.
Proof. unfold response_status. by rewrite lookup_insert_eq. Qed.

Lemma response_status_keeps (s : string) (response : pydict) (k : string) :
  k ≠ "status" → (<["status" := JStr s]> response) !! k = response !! k.
Proof. intros Hk. by rewrite lookup_insert_ne. Qed.

(** What a poll of an existing entry reports, branch by branch. *)
Lemma get_latest_existing (esp_id : string) (now : float) (reg : registry)
    (info : DeviceInfo) :
  reg !! esp_id = Some info →
  (get_latest esp_id now reg).2 = reg.
Proof.
  intros Hin. unfold get_latest. rewrite Hin.
  repeat case_match; reflexivity.
Qed.

Lemma get_latest_collecting (esp_id : string) (now : float) (reg : registry)
    (info : DeviceInfo) :
  reg !! esp_id = Some info → ready info = false → collecting info = true →
  response_status (get_latest esp_id now reg).1 = Some "collecting".
Proof.
  intros Hin Hr Hc. unfold get_latest. rewrite Hin, Hr, Hc.
  rewrite andb_false_r. reflexivity.
Qed.

Lemma get_latest_idle (esp_id : string) (now : float) (reg : registry)
    (info : DeviceInfo) :
  reg !! esp_id = Some info → ready info = false → collecting info = false →
  response_status (get_latest esp_id now reg).1 = Some "idle".
Proof.
  intros Hin Hr Hc. unfold get_latest. rewrite Hin, Hr, Hc.
  rewrite andb_false_r. reflexivity.
Qed.

Lemma get_latest_ready (esp_id : string) (now : float) (reg : registry)
    (info : DeviceInfo) :
  reg !! esp_id = Some info → ready info = true → collecting info = false →
  (get_latest esp_id now reg).1 =
    if PrimFloat.ltb stale_after (now - last_update info)
    then {[ "status" := JStr "stale";
            "message" := JStr "Data is too old, please start new measurement" ]}
    else <["status" := JStr "ready"]> (latest info).
Proof.
  intros Hin Hr Hc. unfold get_latest. rewrite Hin, Hr, Hc.
  rewrite andb_true_r. by case_match.
Qed.

Lemma get_latest_ready_status (esp_id : string) (now : float) (reg : registry)
    (info : DeviceInfo) :
  reg !! esp_id = Some info → ready info = true → collecting info = false →
  response_status (get_latest esp_id now reg).1 =
    Some (if PrimFloat.ltb stale_after (now - last_update info)
          then "stale" else "ready").
Proof.
  intros Hin Hr Hc. rewrite (get_latest_ready _ _ _ info) by done.
  case_match; [reflexivity | apply response_status_insert].
Qed.

(** ** What the writers store *)

Lemma start_measurement_registry (esp_id : string) (now : float)
    (reg : registry) :
  (start_measurement esp_id now reg).2 = <[esp_id := collecting_info now]> reg.
Proof. reflexivity. Qed.

Section Upload.

Variable float_validator : json → option float.
Variable int_validator : json → option Z.
Variable str_validator : json → option string.
Variable str_exc : ValidationError → string.

Local Abbreviation validate :=
  (ECGData_validate float_validator int_validator str_validator).
Local Abbreviation upload :=
  (receive_data float_validator int_validator str_validator str_exc).

Lemma receive_data_valid (esp_id : string) (payload : pydict) (now : float)
    (reg : registry) (ecg_data : ECGData) :
  validate payload = inr ecg_data →
  upload esp_id payload now reg =
    (inr {[ "status" := JStr "ok";
            "message" := JStr "Data received successfully";
            "esp_id" := JStr esp_id ]},
     <[esp_id := ready_info payload now]> reg).
Proof. intros Hv. unfold receive_data. by rewrite Hv. Qed.

Lemma receive_data_invalid (esp_id : string) (payload : pydict) (now : float)
    (reg : registry) (e : ValidationError) :
  validate payload = inl e →
  upload esp_id payload now reg =
    (inl (mkHTTPException 400 ("Invalid data format: " ++ str_exc e)), reg).
Proof. intros Hv. unfold receive_data. by rewrite Hv. Qed.

(** A required field that is absent or rejected makes the validation fail,
    and the error names the field. *)
Lemma validate_required_hr (payload : pydict) (fe : field_error) :
  required_field float_validator payload "hr" = inl fe →
  ∃ e, validate payload = inl e ∧ ("hr", fe) ∈ e.
Proof.
  intros H. unfold ECGData_validate. rewrite H.
  eexists. split; [reflexivity |]. set_solver.
Qed.

Lemma validate_required_spo2 (payload : pydict) (fe : field_error) :
  required_field float_validator payload "spo2" = inl fe →
  ∃ e, validate payload = inl e ∧ ("spo2", fe) ∈ e.
Proof.
  intros H. unfold ECGData_validate. rewrite H.
  destruct (required_field float_validator payload "hr");
    (eexists; split; [reflexivity |]; set_solver).
Qed.

Lemma validate_required_ecg (payload : pydict) (fe : field_error) :
  required_field (list_float_validator float_validator) payload "ecg" = inl fe →
  ∃ e, validate payload = inl e ∧ ("ecg", fe) ∈ e.
Proof.
  intros H. unfold ECGData_validate. rewrite H.
  destruct (required_field float_validator payload "hr"),
    (required_field float_validator payload "spo2");
    (eexists; split; [reflexivity |]; set_solver).
Qed.

Lemma required_field_missing {T} (validator : json → option T)
    (payload : pydict) (name : string) :
  payload !! name = None →
  required_field validator payload name = inl field_required.
Proof. intros H. unfold required_field. by rewrite H. Qed.

Lemma list_float_validator_numbers (v : json) :
  is_Some (list_float_validator float_validator v) ↔
  sequence_of_numbers float_validator v.
Proof.
  unfold sequence_of_numbers. split.
  - intros Hs. destruct v; simpl in Hs; try by destruct Hs.
    exists l. split; [done |]. by apply mapM_is_Some.
  - intros (l & -> & Hl). simpl. by apply mapM_is_Some.
Qed.

(** A payload that passes validation has at least its three required
    keys. *)
Lemma valid_payload_nonempty (payload : pydict) (ecg_data : ECGData) :
  validate payload = inr ecg_data → payload ≠ ∅.
Proof.
  intros Hv ->. unfold ECGData_validate in Hv.
  rewrite (required_field_missing _ ∅ "hr") in Hv by apply lookup_empty.
  discriminate.
Qed.

End Upload.

(** ** What the listing shows *)

Lemma elem_of_list_devices (now : float) (reg : registry) (s : DeviceSummary) :
  s ∈ (list_devices now reg).2 ↔
  ∃ esp_id info, reg !! esp_id = Some info ∧ s = device_summary now (esp_id, info).
Proof.
  unfold list_devices. simpl. rewrite list_elem_of_fmap. split.
  - intros ([esp_id info] & -> & Hin). exists esp_id, info.
    split; [by apply elem_of_map_to_list | done].
  - intros (esp_id & info & Hin & ->). exists (esp_id, info).
    split; [done | by apply elem_of_map_to_list].
Qed.

Lemma list_devices_ids (now : float) (reg : registry) :
  sum_esp_id <$> (list_devices now reg).2 = (map_to_list reg).*1.
Proof.
  unfold list_devices. simpl. rewrite <- list_fmap_compose.
  apply list_fmap_ext. by intros i [esp_id info] _.
Qed.

Lemma dict_truthy_nonempty (d : pydict) : dict_truthy d = true ↔ d ≠ ∅.
Proof.
  unfold dict_truthy. rewrite negb_true_iff, Nat.eqb_neq.
  by rewrite map_size_empty_iff.
Qed.

(** * The claims about the registry *)

Section Claims.

Variable float_validator : json → option float.
Variable int_validator : json → option Z.
Variable str_validator : json → option string.
Variable str_exc : ValidationError → string.

Local Abbreviation validate :=
  (ECGData_validate float_validator int_validator str_validator).
Local Abbreviation upload :=
  (receive_data float_validator int_validator str_validator str_exc).

(** C1. Start signal, then the upload of a payload that passes validation,
    then a poll made before the staleness threshold has elapsed since the
    upload: the upload is acknowledged, the poll reports ["ready"], and its
    response is the uploaded payload with the ["status"] entry set to
    ["ready"], every other entry being the payload's. *)
Theorem start_upload_poll_ready (esp_id : string) (payload : pydict)
    (t_start t_upload t_poll : float) (reg : registry) (ecg_data : ECGData) :
  validate payload = inr ecg_data →
  PrimFloat.ltb stale_after (t_poll - t_upload) = false →
  let reg1 := (start_measurement esp_id t_start reg).2 in
  let up := upload esp_id payload t_upload reg1 in
  let poll := get_latest esp_id t_poll up.2 in
  (∃ ack, up.1 = inr ack ∧ response_status ack = Some "ok") ∧
  response_status poll.1 = Some "ready" ∧
  poll.1 = <["status" := JStr "ready"]> payload ∧
  (∀ k, k ≠ "status" → poll.1 !! k = payload !! k).
Proof.
  intros Hv Hfresh reg1 up poll.
  assert (Hup : up = (inr {[ "status" := JStr "ok";
                             "message" := JStr "Data received successfully";
                             "esp_id" := JStr esp_id ]},
                      <[esp_id := ready_info payload t_upload]> reg1))
    by (by apply receive_data_valid with ecg_data).
  assert (Hpoll : poll.1 = <["status" := JStr "ready"]> payload).
  { unfold poll. rewrite Hup. simpl.
    rewrite (get_latest_ready _ _ _ (ready_info payload t_upload));
      [| apply lookup_insert_eq | done | done].
    simpl. by rewrite Hfresh. }
  split; [| split; [| split]].
  - rewrite Hup. eexists. split; [reflexivity |]. reflexivity.
  - rewrite Hpoll. apply response_status_insert.
  - exact Hpoll.
  - intros k Hk. rewrite Hpoll. by apply response_status_keeps.
Qed.

(** C2. Whatever the registry holds for the device (nothing, or an entry in
    any state), a start signal is acknowledged with ["collecting"], stores
    an entry with an empty payload, [last_update] set to the time of the
    call and the collecting flag raised, and a poll that follows reports
    ["collecting"], at whatever time it is made, and changes nothing. *)
Theorem start_then_poll_collecting (esp_id : string) (t_start t_poll : float)
    (reg : registry) :
  let start := start_measurement esp_id t_start reg in
  let poll := get_latest esp_id t_poll start.2 in
  response_status start.1 = Some "collecting" ∧
  start.2 !! esp_id = Some (collecting_info t_start) ∧
  latest (collecting_info t_start) = ∅ ∧
  last_update (collecting_info t_start) = t_start ∧
  response_status poll.1 = Some "collecting" ∧
  poll.2 = start.2.
Proof.
  intros start poll.
  assert (Hin : start.2 !! esp_id = Some (collecting_info t_start))
    by apply lookup_insert_eq.
  repeat split; try done.
  - by apply get_latest_collecting with (collecting_info t_start).
  - by apply get_latest_existing with (collecting_info t_start).
Qed.


(** C4. When the registry has an entry for the device, in whatever state,
    the upload of a payload that passes validation is acknowledged and
    replaces the entry by one that holds the payload, is ready, is not
    collecting and has [last_update] set to the time of the call; no start
    signal is needed. A poll then reports ["ready"], or ["stale"] once the
    threshold has elapsed. *)
Theorem upload_existing_ready (esp_id : string) (payload : pydict)
    (now : float) (reg : registry) (info : DeviceInfo) (ecg_data : ECGData) :
  reg !! esp_id = Some info →
  validate payload = inr ecg_data →
  let up := upload esp_id payload now reg in
  (∃ ack, up.1 = inr ack ∧ response_status ack = Some "ok") ∧
  up.2 !! esp_id = Some (ready_info payload now) ∧
  latest (ready_info payload now) = payload ∧
  last_update (ready_info payload now) = now ∧
  status (ready_info payload now) = "ready" ∧
  ∀ t_poll, response_status (get_latest esp_id t_poll up.2).1 =
              Some (if PrimFloat.ltb stale_after (t_poll - now)
                    then "stale" else "ready").
Proof.
  intros _ Hv up. unfold up.
  rewrite (receive_data_valid _ _ _ _ _ _ _ _ ecg_data Hv). simpl.
  split; [by eexists |].
  split; [apply lookup_insert_eq |].
  repeat split.
  intros t_poll.
  rewrite (get_latest_ready_status _ _ _ (ready_info payload now));
    [done | apply lookup_insert_eq | done | done].
Qed.

(** C6. The first poll of a device the registry does not know reports
    ["idle"] and stores an idle entry for it; the listing made afterwards
    has an item for the device, and every item for it shows ["idle"]. *)
Theorem poll_unknown_creates_idle (esp_id : string) (now t_list : float)
    (reg : registry) :
  reg !! esp_id = None →
  let poll := get_latest esp_id now reg in
  response_status poll.1 = Some "idle" ∧
  poll.2 !! esp_id = Some (idle_info now) ∧
  (∃ s, s ∈ (list_devices t_list poll.2).2 ∧ sum_esp_id s = esp_id) ∧
  (∀ s, s ∈ (list_devices t_list poll.2).2 → sum_esp_id s = esp_id →
        sum_status s = "idle" ∧ sum_ready s = false ∧
        sum_collecting s = false ∧ sum_has_data s = false).
Proof.
  intros Hnew poll.
  assert (Hpoll : poll = ({[ "status" := JStr "idle";
                             "message" :=
                               JStr "Device initialized, waiting for start signal" ]},
                          <[esp_id := idle_info now]> reg)).
  { unfold poll, get_latest. by rewrite Hnew. }
  rewrite Hpoll. simpl.
  split; [reflexivity |].
  split; [apply lookup_insert_eq |].
  split.
  - exists (device_summary t_list (esp_id, idle_info now)).
    split; [| done].
    apply elem_of_list_devices. exists esp_id, (idle_info now).
    split; [apply lookup_insert_eq | done].
  - intros s Hs Hid.
    apply elem_of_list_devices in Hs as (esp_id' & info & Hin & ->).
    simpl in Hid. subst esp_id'.
    rewrite lookup_insert_eq in Hin. by injection Hin as <-.
Qed.

(** C7. A poll of a device the registry knows leaves the registry as it
    was: the entry keeps its state flags, its payload and its
    [last_update], also when the poll reports ["stale"]. *)
Theorem poll_existing_readonly (esp_id : string) (now : float)
    (reg : registry) (info : DeviceInfo) :
  reg !! esp_id = Some info →
  (get_latest esp_id now reg).2 = reg ∧
  (get_latest esp_id now reg).2 !! esp_id = Some info ∧
  (ready info = true → PrimFloat.ltb stale_after (now - last_update info) = true →
   response_status (get_latest esp_id now reg).1 = Some "stale").
Proof.
  intros Hin.
  rewrite (get_latest_existing _ _ _ info Hin).
  split; [done |]. split; [done |].
  intros Hr Hold. unfold get_latest. rewrite Hin, Hr, Hold. reflexivity.
Qed.

(** C10. When the registry has no entry for the device, the upload of a
    payload that passes validation creates the entry ready, with the
    payload stored: the new registry is the old one with that one entry
    added, no idle or collecting entry is written on the way, and a poll
    reports ["ready"] (["stale"] once the threshold has elapsed), never
    ["idle"] or ["collecting"]. *)
Theorem upload_unknown_creates_ready (esp_id : string) (payload : pydict)
    (now : float) (reg : registry) (ecg_data : ECGData) :
  reg !! esp_id = None →
  validate payload = inr ecg_data →
  let up := upload esp_id payload now reg in
  (∃ ack, up.1 = inr ack ∧ response_status ack = Some "ok") ∧
  up.2 = <[esp_id := ready_info payload now]> reg ∧
  up.2 !! esp_id = Some (ready_info payload now) ∧
  (∀ other, other ≠ esp_id → up.2 !! other = reg !! other) ∧
  ∀ t_poll,
    response_status (get_latest esp_id t_poll up.2).1 =
      Some (if PrimFloat.ltb stale_after (t_poll - now) then "stale" else "ready") ∧
    response_status (get_latest esp_id t_poll up.2).1 ≠ Some "idle" ∧
    response_status (get_latest esp_id t_poll up.2).1 ≠ Some "collecting".
Proof.
  intros _ Hv up. unfold up.
  rewrite (receive_data_valid _ _ _ _ _ _ _ _ ecg_data Hv). simpl.
  split; [by eexists |].
  split; [done |].
  split; [apply lookup_insert_eq |].
  split; [intros other Hne; by apply lookup_insert_ne |].
  intros t_poll.
  rewrite (get_latest_ready_status _ _ _ (ready_info payload now));
    [| apply lookup_insert_eq | done | done].
  simpl. destruct (PrimFloat.ltb stale_after (t_poll - now));
    (split; [reflexivity | split; discriminate]).
Qed.

End Claims.

(** ** The invariant of the registry *)

Section Invariant.

Variable float_validator : json → option float.
Variable int_validator : json → option Z.
Variable str_validator : json → option string.
Variable str_exc : ValidationError → string.

Local Abbreviation validate :=
  (ECGData_validate float_validator int_validator str_validator).
Local Abbreviation step :=
  (handle float_validator int_validator str_validator str_exc).
Local Abbreviation exec :=
  (run float_validator int_validator str_validator str_exc).
Local Abbreviation uploaded :=
  (uploaded_since_collecting float_validator int_validator str_validator).
Local Abbreviation note :=
  (note_upload float_validator int_validator str_validator).

Lemma run_snoc (trace : list (float * request)) (event : float * request)
    (reg : registry) :
  exec (trace ++ [event]) reg = step (exec trace reg) event.
Proof. unfold run. by rewrite foldl_app. Qed.

Lemma uploaded_snoc (esp_id : string) (trace : list (float * request))
    (event : float * request) :
  uploaded esp_id (trace ++ [event]) = note esp_id (uploaded esp_id trace) event.
Proof. unfold uploaded_since_collecting. by rewrite foldl_app. Qed.

Lemma session_inv_none (seen : bool) : session_inv seen None.
Proof. intros info H. discriminate. Qed.

Lemma session_inv_idle (seen : bool) (now : float) :
  session_inv seen (Some (idle_info now)).
Proof. intros info [= <-]. by split. Qed.

Lemma session_inv_collecting (seen : bool) (now : float) :
  session_inv seen (Some (collecting_info now)).
Proof. intros info [= <-]. by split. Qed.

Lemma session_inv_ready (payload : pydict) (now : float) (ecg_data : ECGData) :
  validate payload = inr ecg_data →
  session_inv true (Some (ready_info payload now)).
Proof.
  intros Hv info [= <-]. split; [| done]. intros _. simpl.
  split; [| done]. by eapply valid_payload_nonempty.
Qed.

(** One request keeps the invariant of every device. *)
Lemma session_inv_step (esp_id : string) (seen : bool) (reg : registry)
    (event : float * request) :
  session_inv seen (reg !! esp_id) →
  session_inv (note esp_id seen event) (step reg event !! esp_id).
Proof.
  intros Hinv. destruct event as [now [id | id payload | id | | id |]];
    unfold note_upload; simpl.
  - rewrite lookup_insert. case_decide; [apply session_inv_collecting | done].
  - unfold receive_data, valid_payload.
    destruct (validate payload) as [e | ecg_data] eqn:Hv; simpl.
    + by case_decide.
    + rewrite lookup_insert. case_decide; [| done].
      by apply session_inv_ready with ecg_data.
  - unfold get_latest. destruct (reg !! id) eqn:Hid.
    + by repeat case_match.
    + simpl. rewrite lookup_insert.
      case_decide; [apply session_inv_idle | done].
  - done.
  - unfold clear_device. destruct (reg !! id) eqn:Hid; simpl; [| done].
    rewrite lookup_delete. case_decide; [apply session_inv_none | done].
  - rewrite lookup_empty. apply session_inv_none.
Qed.

Lemma session_inv_run (esp_id : string) (trace : list (float * request)) :
  session_inv (uploaded esp_id trace) (exec trace device_data0 !! esp_id).
Proof.
  induction trace as [| event trace IH] using rev_ind.
  - apply session_inv_none.
  - rewrite run_snoc, uploaded_snoc. by apply session_inv_step.
Qed.

(** C9. After any sequence of start signals, uploads, polls, listings and
    clears served from the empty registry, the entry of a device holds a
    payload if and only if a poll of the device reports ["ready"] or
    ["stale"] and an upload for the device has been accepted since the
    last start signal for it (since the beginning, when the device was
    never started: an upload alone creates a ready entry). *)
Theorem payload_iff_ready_and_uploaded (trace : list (float * request))
    (esp_id : string) (info : DeviceInfo) (now : float) :
  exec trace device_data0 !! esp_id = Some info →
  dict_truthy (latest info) = true ↔
    (response_status (get_latest esp_id now (exec trace device_data0)).1
       = Some "ready" ∨
     response_status (get_latest esp_id now (exec trace device_data0)).1
       = Some "stale") ∧
    uploaded esp_id trace = true.
Proof.
  intros Hin.
  destruct (session_inv_run esp_id trace info Hin) as [Hready Hnot].
  rewrite dict_truthy_nonempty.
  destruct (ready info) eqn:Hr.
  - destruct (Hready eq_refl) as (Hne & Hc & Hup).
    rewrite (get_latest_ready_status _ _ _ info Hin Hr Hc).
    split; [| done]. intros _. split; [| done].
    destruct (PrimFloat.ltb stale_after (now - last_update info)); auto.
  - rewrite (Hnot eq_refl). split; [done |].
    intros [Hst _]. exfalso.
    destruct (collecting info) eqn:Hc.
    + rewrite (get_latest_collecting _ _ _ info Hin Hr Hc) in Hst.
      by destruct Hst.
    + rewrite (get_latest_idle _ _ _ info Hin Hr Hc) in Hst.
      by destruct Hst.
Qed.

End Invariant.

(** ** The listing *)



(** ** Concrete runs *)

Lemma sample_payload_valid :
  ECGData_validate strict_float strict_int strict_str sample_payload
  = inr sample_ecg.
Proof. vm_compute. reflexivity. Defined.

Lemma start_upload_poll_ready_witness :
  ECGData_validate strict_float strict_int strict_str sample_payload
    = inr sample_ecg ∧
  PrimFloat.ltb stale_after (20 - 10) = false ∧
  get_latest "esp32_01" 20%float
    (receive_data strict_float strict_int strict_str field_names
       "esp32_01" sample_payload 10%float
       (start_measurement "esp32_01" 0%float device_data0).2).2
  = (<["status" := JStr "ready"]> sample_payload,
     {[ "esp32_01" := ready_info sample_payload 10%float ]}).
Proof.
  split; [exact sample_payload_valid |]. split; [reflexivity |].
  pose proof (start_upload_poll_ready strict_float strict_int strict_str
                field_names "esp32_01" sample_payload 0%float 10%float 20%float
                device_data0 sample_ecg sample_payload_valid eq_refl) as H.
  simpl in H. destruct H as (_ & _ & Hresp & _).
  apply injective_projections; [exact Hresp |].
  vm_compute. reflexivity.
Defined.



Lemma upload_existing_ready_witness :
  (get_latest "esp32_01" 0%float device_data0).2 !! "esp32_01"
    = Some (idle_info 0%float) ∧
  ECGData_validate strict_float strict_int strict_str sample_payload
    = inr sample_ecg ∧
  (receive_data strict_float strict_int strict_str field_names
     "esp32_01" sample_payload 10%float
     (get_latest "esp32_01" 0%float device_data0).2).2 !! "esp32_01"
  = Some (ready_info sample_payload 10%float).
Proof.
  split; [reflexivity |]. split; [exact sample_payload_valid |].
  exact (proj1 (proj2
    (upload_existing_ready strict_float strict_int strict_str field_names
       "esp32_01" sample_payload 10%float
       (get_latest "esp32_01" 0%float device_data0).2 (idle_info 0%float)
       sample_ecg eq_refl sample_payload_valid))).
Defined.

Lemma poll_unknown_creates_idle_witness :
  device_data0 !! "esp32_01" = None ∧
  response_status (get_latest "esp32_01" 0%float device_data0).1 = Some "idle" ∧
  (get_latest "esp32_01" 0%float device_data0).2 !! "esp32_01"
    = Some (idle_info 0%float).
Proof.
  split; [reflexivity |].
  pose proof (poll_unknown_creates_idle "esp32_01" 0%float 5%float device_data0
                eq_refl) as H.
  simpl in H. destruct H as (Hst & Hin & _). split; [exact Hst | exact Hin].
Defined.

Lemma poll_existing_readonly_witness :
  (start_measurement "esp32_01" 0%float device_data0).2 !! "esp32_01"
    = Some (collecting_info 0%float) ∧
  (get_latest "esp32_01" 1000%float
     (start_measurement "esp32_01" 0%float device_data0).2).2
  = (start_measurement "esp32_01" 0%float device_data0).2.
Proof.
  split; [reflexivity |].
  exact (proj1 (poll_existing_readonly "esp32_01" 1000%float
                  (start_measurement "esp32_01" 0%float device_data0).2
                  (collecting_info 0%float) eq_refl)).
Defined.

Lemma upload_unknown_creates_ready_witness :
  device_data0 !! "esp32_01" = None ∧
  ECGData_validate strict_float strict_int strict_str sample_payload
    = inr sample_ecg ∧
  (receive_data strict_float strict_int strict_str field_names
     "esp32_01" sample_payload 10%float device_data0).2
  = <["esp32_01" := ready_info sample_payload 10%float]> device_data0.
Proof.
  split; [reflexivity |]. split; [exact sample_payload_valid |].
  exact (proj1 (proj2
    (upload_unknown_creates_ready strict_float strict_int strict_str
       field_names "esp32_01" sample_payload 10%float device_data0
       sample_ecg eq_refl sample_payload_valid))).
Defined.

Lemma sample_trace_entry :
  run strict_float strict_int strict_str field_names sample_trace device_data0
    !! "esp32_01" = Some (ready_info sample_payload 10%float).
Proof. vm_compute. reflexivity. Defined.

Lemma payload_iff_ready_and_uploaded_witness :
  run strict_float strict_int strict_str field_names sample_trace device_data0
    !! "esp32_01" = Some (ready_info sample_payload 10%float) ∧
  (dict_truthy sample_payload = true ↔
   (response_status
      (get_latest "esp32_01" 20%float
         (run strict_float strict_int strict_str field_names
            sample_trace device_data0)).1 = Some "ready" ∨
    response_status
      (get_latest "esp32_01" 20%float
         (run strict_float strict_int strict_str field_names
            sample_trace device_data0)).1 = Some "stale") ∧
   uploaded_since_collecting strict_float strict_int strict_str
     "esp32_01" sample_trace = true).
Proof.
  split; [exact sample_trace_entry |].
  exact (payload_iff_ready_and_uploaded strict_float strict_int strict_str
           field_names sample_trace "esp32_01"
           (ready_info sample_payload 10%float) 20%float sample_trace_entry).
Defined.

(** * Floats *)

(** ** Comparing floats *)

Lemma SFcompare_antisym (x y : spec_float) :
  SFcompare y x = CompOpp <$> SFcompare x y.
Proof.
  destruct x as [sx | sx | | sx mx ex], y as [sy | sy | | sy my ey]; simpl;
    repeat match goal with s : bool |- _ => destruct s end;
    simpl; try done; f_equal;
    pose proof (Pos.compare_cont_antisym mx my Eq) as Hm; simpl in Hm;
    rewrite (Z.compare_antisym ex ey), <- Hm;
    destruct (ex ?= ey)%Z; simpl; try done;
    by destruct (Pos.compare_cont Eq mx my).
Qed.

Lemma SFcompare_None (x y : spec_float) :
  SFcompare x y = None → x = S754_nan ∨ y = S754_nan.
Proof.
  destruct x as [sx | sx | | sx mx ex], y as [sy | sy | | sy my ey]; simpl;
    intros H; auto; discriminate.
Qed.

Lemma SFcompare_nan_r (x : spec_float) : SFcompare x S754_nan = None.
Proof. by destruct x. Qed.

(** Less than implies at most. *)
Lemma ltb_leb (x y : float) :
  PrimFloat.ltb x y = true → PrimFloat.leb x y = true.
Proof.
  rewrite ltb_spec, leb_spec. unfold SFltb, SFleb.
  by destruct (SFcompare _ _) as [[] |].
Qed.

(** Among numbers, not above means at most. *)
Lemma not_ltb_leb (x y : float) :
  PrimFloat.ltb y x = false → PrimFloat.leb x x = true →
  PrimFloat.leb y y = true → PrimFloat.leb x y = true.
Proof.
  rewrite ltb_spec, !leb_spec. unfold SFltb, SFleb.
  rewrite (SFcompare_antisym (Prim2SF y) (Prim2SF x)).
  destruct (SFcompare (Prim2SF y) (Prim2SF x)) as [[] |] eqn:Hc; try done.
  intros _ Hx Hy. exfalso.
  destruct (SFcompare_None _ _ Hc) as [Hn | Hn]; rewrite Hn in *; done.
Qed.

Lemma leb_not_ltb (x y : float) :
  PrimFloat.leb x y = true → PrimFloat.ltb y x = false.
Proof.
  rewrite ltb_spec, leb_spec. unfold SFltb, SFleb.
  rewrite (SFcompare_antisym (Prim2SF x) (Prim2SF y)).
  by destruct (SFcompare (Prim2SF x) (Prim2SF y)) as [[] |].
Qed.

Lemma ltb_leb_refl_r (x y : float) :
  PrimFloat.ltb x y = true → PrimFloat.leb y y = true.
Proof.
  rewrite ltb_spec, leb_spec. unfold SFltb, SFleb.
  destruct (Prim2SF y) as [sy | sy | | sy my ey] eqn:Hy.
  - done.
  - by destruct sy.
  - by rewrite SFcompare_nan_r.
  - intros _. simpl. rewrite Z.compare_refl, Pos.compare_cont_refl.
    by destruct sy.
Qed.

Lemma SFcompare_refl (x : spec_float) :
  x ≠ S754_nan → SFcompare x x = Some Eq.
Proof.
  destruct x as [s | s | | s m e]; simpl; intros Hx; try done.
  - by destruct s.
  - rewrite Z.compare_refl, Pos.compare_cont_refl. by destruct s.
Qed.

Lemma is_nan_spec (x : float) :
  PrimFloat.is_nan x = true ↔ Prim2SF x = S754_nan.
Proof.
  unfold PrimFloat.is_nan. rewrite FloatAxioms.eqb_spec. unfold SFeqb.
  destruct (Prim2SF x) as [s | s | | s m e] eqn:Hx.
  - by destruct s.
  - by destruct s.
  - done.
  - rewrite SFcompare_refl by done. done.
Qed.

Lemma SFleb_trans (x y z : spec_float) :
  SFleb x y = true → SFleb y z = true → SFleb x z = true.
Proof.
  unfold SFleb.
  destruct x as [sx | sx | | sx mx ex], y as [sy | sy | | sy my ey],
    z as [sz | sz | | sz mz ez]; simpl;
    repeat match goal with s : bool |- _ => destruct s end;
    simpl; try done;
    change (Pos.compare_cont Eq) with Pos.compare;
    destruct (Z.compare_spec ex ey), (Z.compare_spec ey ez),
      (Z.compare_spec ex ez); try lia; simpl; try done;
    destruct (Pos.compare_spec mx my), (Pos.compare_spec my mz),
      (Pos.compare_spec mx mz); simpl; try done; lia.
Qed.

(** ** The length of an array as a float

    An integer below [2^53] is converted exactly, to a positive float. *)

Lemma digits2_pos_iter (p q : positive) :
  digits2_pos (Pos.iter xO p q) = (digits2_pos p + q)%positive.
Proof.
  induction q as [| q IH] using Pos.peano_ind.
  - simpl. by rewrite Pos.add_1_r.
  - rewrite Pos.iter_succ. simpl. rewrite IH. lia.
Qed.

Lemma digits2_pos_bound (p : positive) (k : Z) :
  (0 ≤ k)%Z → (Z.pos p < 2 ^ k)%Z → (Z.pos (digits2_pos p) ≤ k)%Z.
Proof.
  revert k. induction p as [p IH | p IH |]; intros k Hk Hp.
  - destruct (Z.eq_dec k 0%Z) as [-> | Hne]; [simpl in Hp; lia |].
    replace k with (Z.succ (k - 1)) in Hp by lia.
    rewrite Z.pow_succ_r in Hp by lia.
    specialize (IH (k - 1)%Z). simpl. lia.
  - destruct (Z.eq_dec k 0%Z) as [-> | Hne]; [simpl in Hp; lia |].
    replace k with (Z.succ (k - 1)) in Hp by lia.
    rewrite Z.pow_succ_r in Hp by lia.
    specialize (IH (k - 1)%Z). simpl. lia.
  - destruct (Z.eq_dec k 0%Z) as [-> | Hne]; [simpl in Hp; lia |]. simpl. lia.
Qed.

Lemma binary_round_exact (p : positive) :
  (Z.pos (digits2_pos p) ≤ 53)%Z →
  ∃ m e, binary_round prec emax false p 0 = S754_finite false m e.
Proof.
  intros Hd. unfold binary_round, shl_align, fexp, emin, prec, emax.
  set (d := Z.pos (digits2_pos p)) in *.
  assert (Hd1 : (1 ≤ d)%Z) by (unfold d; lia).
  rewrite Z.max_l by lia.
  assert (Haux : ∀ mz ez, (Z.pos (digits2_pos mz) + ez = d)%Z →
            (ez = d - 53)%Z →
            ∃ m e, binary_round_aux 53 1024 false (Z.pos mz) ez loc_Exact
                   = S754_finite false m e).
  { intros mz ez Hmz Hez.
    unfold binary_round_aux, shr_fexp, fexp, emin, Zdigits2.
    rewrite Hmz. rewrite Z.max_l by lia.
    replace (d - 53 - ez)%Z with 0%Z by lia. simpl.
    rewrite Hmz. rewrite Z.max_l by lia.
    replace (d - 53 - ez)%Z with 0%Z by lia. simpl.
    assert (Hle : (ez <=? 1024 - 53)%Z = true) by (apply Z.leb_le; lia).
    rewrite Hle. by eexists _, _. }
  destruct (d + 0 - 53 - 0)%Z as [| q | q] eqn:Hq.
  - apply Haux; lia.
  - lia.
  - apply Haux; [| lia]. rewrite digits2_pos_iter. fold d. lia.
Qed.

Lemma of_uint63_positive (k : Z) :
  (0 < k < 2 ^ 53)%Z →
  ∃ m e, Prim2SF (of_uint63 (Uint63.of_Z k)) = S754_finite false m e.
Proof.
  intros Hk. rewrite of_uint63_spec, Uint63.of_Z_spec.
  rewrite Z.mod_small by (change wB with (2 ^ 63)%Z; lia).
  destruct k as [| p | p]; try lia. simpl.
  apply binary_round_exact. apply digits2_pos_bound; lia.
Qed.

Lemma zero_div_len (n : nat) :
  (Z.of_nat (S n) < 2 ^ 53)%Z → (0 / float_of_len (S n))%float = 0%float.
Proof.
  intros Hn. apply Prim2SF_inj. rewrite div_spec. unfold float_of_len.
  destruct (of_uint63_positive (Z.of_nat (S n))) as (m & e & ->); [lia |].
  reflexivity.
Qed.

Lemma eqb_zero (d : float) :
  PrimFloat.eqb d 0 = true → d = 0%float ∨ d = (-0)%float.
Proof.
  rewrite FloatAxioms.eqb_spec. unfold SFeqb.
  change (Prim2SF 0) with (S754_zero false).
  destruct (Prim2SF d) as [s | s | | s m e] eqn:Hd; simpl;
    try done; try (by destruct s).
  intros _. destruct s; [right | left]; apply Prim2SF_inj; by rewrite Hd.
Qed.

(** ** The order of floats that are not NaN *)

Lemma leb_trans (x y z : float) :
  PrimFloat.leb x y = true → PrimFloat.leb y z = true →
  PrimFloat.leb x z = true.
Proof. rewrite !leb_spec. apply SFleb_trans. Qed.

Lemma leb_refl (x : float) :
  PrimFloat.is_nan x = false → PrimFloat.leb x x = true.
Proof.
  intros Hx. rewrite leb_spec. unfold SFleb.
  rewrite SFcompare_refl; [done |].
  intros Hn. apply is_nan_spec in Hn. congruence.
Qed.

Lemma leb_total (x y : float) :
  PrimFloat.is_nan x = false → PrimFloat.is_nan y = false →
  PrimFloat.leb y x = false → PrimFloat.leb x y = true.
Proof.
  intros Hx Hy. rewrite !leb_spec. unfold SFleb.
  rewrite (SFcompare_antisym (Prim2SF y) (Prim2SF x)).
  destruct (SFcompare (Prim2SF y) (Prim2SF x)) as [[] |] eqn:Hc; try done.
  intros _. exfalso.
  destruct (SFcompare_None _ _ Hc) as [Hn | Hn]; apply is_nan_spec in Hn;
    congruence.
Qed.

(** The fold of [np_maximum] is a NaN or bounds what it has seen. *)
Lemma foldl_np_maximum_upper (rest : list float) (x : float) :
  PrimFloat.is_nan (foldl np_maximum x rest) = false →
  ∀ v, v ∈ x :: rest → PrimFloat.leb v (foldl np_maximum x rest) = true.
Proof.
  assert (Hgen : ∀ (rest : list float) (acc : float) (seen : list float),
            (PrimFloat.is_nan acc = false →
             ∀ v, v ∈ seen → PrimFloat.leb v acc = true) →
            PrimFloat.is_nan (foldl np_maximum acc rest) = false →
            ∀ v, v ∈ (seen ++ rest)%list →
                 PrimFloat.leb v (foldl np_maximum acc rest) = true).
  { clear. induction rest as [| y rest IH]; intros acc seen Hseen Hnan v Hv.
    - rewrite app_nil_r in Hv. by apply Hseen.
    - simpl in *. apply (IH (np_maximum acc y) (seen ++ [y])%list); [| done |].
      + unfold np_maximum.
        destruct (PrimFloat.is_nan acc) eqn:Hacc.
        { rewrite orb_true_r. congruence. }
        rewrite orb_false_r.
        destruct (PrimFloat.leb y acc) eqn:Hy.
        * intros _ w Hw. apply elem_of_app in Hw as [Hw | Hw]; [by apply Hseen |].
          apply list_elem_of_singleton in Hw as ->. done.
        * intros Hynan w Hw.
          apply elem_of_app in Hw as [Hw | Hw].
          -- apply leb_trans with acc; [by apply Hseen |].
             by apply leb_total.
          -- apply list_elem_of_singleton in Hw as ->. by apply leb_refl.
      + by rewrite <- app_assoc. }
  intros Hnan v Hv. apply (Hgen rest x [x]); [| done | done].
  intros Hx w Hw. apply list_elem_of_singleton in Hw as ->. by apply leb_refl.
Qed.

(** * The ECG classifier *)

(** [np.max] returns an item of the array. *)

Lemma np_maximum_choice (x y : float) : np_maximum x y = x ∨ np_maximum x y = y.
Proof. unfold np_maximum. case_match; auto. Qed.

Lemma foldl_np_maximum_elem (x : float) (rest : list float) :
  foldl np_maximum x rest ∈ x :: rest.
Proof.
  revert x. induction rest as [| y rest IH]; intros x; simpl.
  - apply elem_of_cons. by left.
  - specialize (IH (np_maximum x y)).
    rewrite elem_of_cons in IH. rewrite !elem_of_cons.
    destruct IH as [-> | Hin]; [| tauto].
    destruct (np_maximum_choice x y); tauto.
Qed.

Lemma np_max_elem (a : list float) (m : float) : np_max a = Some m → m ∈ a.
Proof.
  destruct a as [| x rest]; [done |]. simpl. intros [= <-].
  apply foldl_np_maximum_elem.
Qed.

(** [np.max] bounds every item of the array, unless it is a NaN. *)
Lemma np_max_upper (a : list float) (m : float) :
  np_max a = Some m → PrimFloat.is_nan m = false →
  ∀ v, v ∈ a → PrimFloat.leb v m = true.
Proof.
  destruct a as [| x rest]; [done |]. simpl. intros [= <-].
  apply foldl_np_maximum_upper.
Qed.

Section RestecgFacts.

Variable add_reduce : list float → float.

Local Abbreviation restecg := (process_ecg_to_restecg add_reduce).

Lemma np_mean_sample_mean (a : list float) :
  np_mean add_reduce a = sample_mean add_reduce a.
Proof. reflexivity. Qed.

(** The standard deviation of the source is that of the specification. *)
Lemma np_std_population_std (a : list float) :
  np_std add_reduce a = population_std add_reduce a.
Proof.
  unfold np_std, population_std, sample_mean, np_mean.
  by rewrite <- list_fmap_compose, length_fmap.
Qed.

(** The divisor: the standard deviation, or one when it tests equal to
    zero. *)
Lemma divisor_safe (sd : float) :
  (if negb (PrimFloat.eqb sd 0) then sd else 1%float)
  = (if PrimFloat.eqb sd 0 then 1%float else sd).
Proof. by destruct (PrimFloat.eqb sd 0). Qed.

Lemma np_abs_z_scores (a : list float) :
  np_abs ((λ v, (v - np_mean add_reduce a)
                / (if negb (PrimFloat.eqb (np_std add_reduce a) 0)
                   then np_std add_reduce a else 1))%float <$> a)
  = (λ v, PrimFloat.abs (z_score add_reduce a v)) <$> a.
Proof.
  unfold np_abs. rewrite <- list_fmap_compose. apply list_fmap_ext.
  intros i v _. simpl. unfold z_score.
  by rewrite divisor_safe, np_std_population_std, np_mean_sample_mean.
Qed.

(** The classifier of the source is the category of the largest absolute
    z-score. *)
Lemma restecg_refines (ecg_values : list float) :
  restecg ecg_values =
    match ecg_values with
    | [] => Some 0%Z
    | _ => category <$> max_abs_z add_reduce ecg_values
    end.
Proof.
  destruct ecg_values as [| v rest]; [reflexivity |].
  unfold process_ecg_to_restecg, max_abs_z. rewrite np_abs_z_scores.
  destruct (np_max _) as [m |]; [| reflexivity].
  simpl. unfold category. by repeat case_match.
Qed.

Lemma np_max_nonempty (a : list float) : a ≠ [] → is_Some (np_max a).
Proof. destruct a; [done | by eexists]. Qed.

Lemma max_abs_z_nonempty (a : list float) :
  a ≠ [] → is_Some (max_abs_z add_reduce a).
Proof.
  intros Ha. apply np_max_nonempty. by destruct a.
Qed.

Lemma category_range (m : float) : category m ∈ [0%Z; 1%Z; 2%Z].
Proof. unfold category. repeat case_match; set_solver. Qed.

(** The largest of zeros is zero. *)
Lemma np_max_zeros (n : nat) :
  np_max (replicate (S n) 0%float) = Some 0%float.
Proof.
  simpl. f_equal. induction n as [| n IH]; [reflexivity | exact IH].
Qed.

(** The squared deviation of a sample that tests equal to the mean. *)
Lemma square_of_zero (d : float) :
  PrimFloat.eqb d 0 = true → (d * d)%float = 0%float.
Proof. intros Hd. by destruct (eqb_zero d Hd) as [-> | ->]. Qed.

Lemma abs_of_zero_over_one (d : float) :
  PrimFloat.eqb d 0 = true → PrimFloat.abs (d / 1) = 0%float.
Proof. intros Hd. by destruct (eqb_zero d Hd) as [-> | ->]. Qed.

(** A constant array whose samples test equal to the computed mean has the
    standard deviation zero, provided that zeros add up to zero. *)
Lemma population_std_constant (x : float) (n : nat) :
  (Z.of_nat (S n) < 2 ^ 53)%Z →
  add_reduce (replicate (S n) 0%float) = 0%float →
  PrimFloat.eqb (x - sample_mean add_reduce (replicate (S n) x)) 0 = true →
  population_std add_reduce (replicate (S n) x) = 0%float.
Proof.
  intros Hn Hsum Hdev. unfold population_std.
  rewrite fmap_replicate, (square_of_zero _ Hdev).
  unfold sample_mean at 1. rewrite Hsum, length_replicate.
  by rewrite zero_div_len.
Qed.

Lemma max_abs_z_constant (x : float) (n : nat) :
  (Z.of_nat (S n) < 2 ^ 53)%Z →
  add_reduce (replicate (S n) 0%float) = 0%float →
  PrimFloat.eqb (x - sample_mean add_reduce (replicate (S n) x)) 0 = true →
  max_abs_z add_reduce (replicate (S n) x) = Some 0%float.
Proof.
  intros Hn Hsum Hdev. unfold max_abs_z. rewrite fmap_replicate.
  unfold z_score. rewrite (population_std_constant x n Hn Hsum Hdev).
  change (PrimFloat.eqb 0 0) with true. cbv iota.
  rewrite (abs_of_zero_over_one _ Hdev). apply np_max_zeros.
Qed.

(** The largest absolute z-score is that of a sample and, unless it is a
    NaN, bounds that of every sample. *)
Lemma max_abs_z_maximum (a : list float) (m : float) :
  max_abs_z add_reduce a = Some m →
  (∃ v, v ∈ a ∧ m = PrimFloat.abs (z_score add_reduce a v)) ∧
  (PrimFloat.is_nan m = false →
   ∀ v, v ∈ a → PrimFloat.leb (PrimFloat.abs (z_score add_reduce a v)) m = true).
Proof.
  unfold max_abs_z. intros Hm. split.
  - apply np_max_elem in Hm.
    apply list_elem_of_fmap in Hm as (v & -> & Hv). by exists v.
  - intros Hnan v Hv. apply (np_max_upper _ m Hm Hnan).
    apply list_elem_of_fmap. by exists v.
Qed.

End RestecgFacts.

Lemma sum_left_zeros (k : nat) : sum_left (replicate k 0%float) = 0%float.
Proof. unfold sum_left. induction k as [| k IH]; [reflexivity | exact IH]. Qed.

Lemma sum_first_zeros (k : nat) : sum_first (replicate k 0%float) = 0%float.
Proof.
  destruct k as [| k]; [reflexivity |]. simpl. by rewrite sum_left_zeros.
Qed.

(** C8, as the code has it. The classifier always returns, and returns 0,
    1 or 2: 0 for the empty sequence; for a non-empty one the category of
    the largest absolute z-score [m] (0 if [m < 1.0], 1 if [m < 2.0], 2
    otherwise), the z-scores being taken from the mean and the population
    standard deviation with divisor 1 when the standard deviation is zero;
    [m] is the absolute z-score of a sample and, unless it is a NaN, is at
    least that of every sample. A constant sequence of fewer than [2^53]
    samples yields 0 whenever the difference between the sample and the
    computed mean tests equal to zero, in any order of summation in which
    zeros add up to zero, as the two left-to-right orders are; it does for
    [5, 5, 5, 5]. *)
Theorem restecg_classifies (add_reduce : list float → float) :
  process_ecg_to_restecg add_reduce [] = Some 0%Z ∧
  (∀ ecg_values, ecg_values ≠ [] →
     ∃ m, max_abs_z add_reduce ecg_values = Some m ∧
          (∃ v, v ∈ ecg_values ∧
                m = PrimFloat.abs (z_score add_reduce ecg_values v)) ∧
          (PrimFloat.is_nan m = false →
           ∀ v, v ∈ ecg_values →
                PrimFloat.leb
                  (PrimFloat.abs (z_score add_reduce ecg_values v)) m = true) ∧
          process_ecg_to_restecg add_reduce ecg_values = Some (category m) ∧
          category m =
            (if PrimFloat.ltb m 1 then 0 else if PrimFloat.ltb m 2 then 1 else 2)%Z) ∧
  (∀ ecg_values, ∃ c, process_ecg_to_restecg add_reduce ecg_values = Some c ∧
                      c ∈ [0%Z; 1%Z; 2%Z]) ∧
  (∀ x n,
     (Z.of_nat (S n) < 2 ^ 53)%Z →
     add_reduce (replicate (S n) 0%float) = 0%float →
     PrimFloat.eqb (x - sample_mean add_reduce (replicate (S n) x)) 0 = true →
     process_ecg_to_restecg add_reduce (replicate (S n) x) = Some 0%Z) ∧
  (∀ k, sum_left (replicate k 0%float) = 0%float) ∧
  (∀ k, sum_first (replicate k 0%float) = 0%float) ∧
  process_ecg_to_restecg sum_left [5; 5; 5; 5]%float = Some 0%Z ∧
  process_ecg_to_restecg sum_first [5; 5; 5; 5]%float = Some 0%Z.
Proof.
  split; [reflexivity |].
  split; [| split; [| split; [| split; [| split; [| split; reflexivity]]]]].
  - intros ecg_values Hne.
    destruct (max_abs_z_nonempty add_reduce ecg_values Hne) as [m Hm].
    exists m. split; [exact Hm |].
    destruct (max_abs_z_maximum add_reduce ecg_values m Hm) as [Helem Hupper].
    split; [exact Helem |]. split; [exact Hupper |].
    split; [| reflexivity].
    rewrite restecg_refines, Hm. by destruct ecg_values.
  - intros ecg_values. rewrite restecg_refines.
    destruct ecg_values as [| v rest].
    + exists 0%Z. split; [reflexivity | set_solver].
    + destruct (max_abs_z_nonempty add_reduce (v :: rest)) as [m Hm]; [done |].
      rewrite Hm. exists (category m). split; [reflexivity |].
      apply category_range.
  - intros x n Hn Hsum Hdev. rewrite restecg_refines.
    rewrite (max_abs_z_constant add_reduce x n Hn Hsum Hdev). reflexivity.
  - apply sum_left_zeros.
  - apply sum_first_zeros.
Qed.

Lemma restecg_classifies_witness :
  (Z.of_nat 4 < 2 ^ 53)%Z ∧
  sum_left (replicate 4 0%float) = 0%float ∧
  PrimFloat.eqb (5 - sample_mean sum_left (replicate 4 5%float)) 0 = true ∧
  process_ecg_to_restecg sum_left (replicate 4 5%float) = Some 0%Z.
Proof.
  assert (Hn : (Z.of_nat 4 < 2 ^ 53)%Z) by reflexivity.
  split; [exact Hn |]. split; [reflexivity |]. split; [reflexivity |].
  destruct (restecg_classifies sum_left) as (_ & _ & _ & Hconst & _).
  exact (Hconst 5%float 3%nat Hn eq_refl eq_refl).
Defined.

(** C8, as stated, fails on a constant sequence. Three samples of one tenth
    add up to 0.30000000000000004, so that the computed mean is
    0.10000000000000002, one unit in the last place above the samples; the
    computed standard deviation is that unit, every z-score is -1, the
    largest absolute z-score is 1.0, which is not below 1.0, and the result
    is 1. Addition commutes, so both orders of summing three equal numbers
    give the same sum. *)
Lemma restecg_constant_tenths :
  process_ecg_to_restecg sum_left [one_tenth; one_tenth; one_tenth] = Some 1%Z ∧
  process_ecg_to_restecg sum_first [one_tenth; one_tenth; one_tenth] = Some 1%Z ∧
  np_mean sum_left [one_tenth; one_tenth; one_tenth]
    = 0x1.999999999999bp-4%float ∧
  np_std sum_left [one_tenth; one_tenth; one_tenth] = 0x1p-56%float.
Proof. vm_compute. repeat split; reflexivity. Qed.

(** * Further properties of [main.py] *)

(** ** Removing devices *)

(** X1. [clear_device] answers ["cleared"] exactly when the device was
    registered; afterwards the device is unknown, one entry fewer is held,
    every other entry is as before, and a second call answers
    ["not_found"] and changes nothing. *)
Theorem clear_device_removes (esp_id : string) (reg : registry) :
  let c := clear_device esp_id reg in
  c.2 !! esp_id = None ∧
  (∀ other, other ≠ esp_id → c.2 !! other = reg !! other) ∧
  (is_Some (reg !! esp_id) →
     response_status c.1 = Some "cleared" ∧ size reg = S (size c.2)) ∧
  (reg !! esp_id = None →
     response_status c.1 = Some "not_found" ∧ c.2 = reg) ∧
  response_status (clear_device esp_id c.2).1 = Some "not_found" ∧
  (clear_device esp_id c.2).2 = c.2.
Proof.
  intros c. unfold c, clear_device.
  destruct (reg !! esp_id) as [info |] eqn:Hin; simpl.
  - rewrite lookup_delete_eq. simpl.
    split; [done |].
    split; [intros other Hne; by apply lookup_delete_ne |].
    split.
    { intros _. split; [reflexivity |].
      rewrite <- (insert_delete_id reg esp_id info Hin) at 1.
      rewrite map_size_insert_None by apply lookup_delete_eq. done. }
    split; [intros [=] |]. done.
  - rewrite Hin. simpl.
    split; [done |]. split; [done |].
    split; [intros [? [=]] |]. done.
Qed.

(** X2. [clear_all_devices] reports as its count the number of devices the
    listing showed, and leaves an empty registry: the listing is then
    empty, and the next poll of any device finds it unknown and answers
    ["idle"]. *)
Theorem clear_all_devices_empties (now : float) (reg : registry) :
  let c := clear_all_devices reg in
  c.1 !! "count" = Some (JInt (Z.of_nat (list_devices now reg).1)) ∧
  response_status c.1 = Some "cleared" ∧
  c.2 = ∅ ∧
  list_devices now c.2 = (0, []) ∧
  (∀ esp_id t, response_status (get_latest esp_id t c.2).1 = Some "idle" ∧
               (get_latest esp_id t c.2).2 = {[ esp_id := idle_info t ]}).
Proof.
  intros c. unfold c, clear_all_devices. simpl.
  split.
  { rewrite lookup_insert_ne by done. rewrite lookup_singleton_eq.
    by rewrite length_fmap, length_map_to_list. }
  split; [reflexivity |]. split; [reflexivity |].
  split.
  { unfold list_devices. by rewrite map_to_list_empty. }
  intros esp_id t. unfold get_latest. rewrite lookup_empty. simpl.
  split; reflexivity.
Qed.

(** X4. The health check counts what the listing lists. A start signal
    for an unknown device raises the count by one; for a registered device
    it leaves the count alone. *)
Theorem root_counts_devices (timestamp : string) (now : float) (reg : registry) :
  root timestamp reg !! "active_devices"
    = Some (JInt (Z.of_nat (list_devices now reg).1)) ∧
  (∀ esp_id t, reg !! esp_id = None →
     root timestamp (start_measurement esp_id t reg).2 !! "active_devices"
       = Some (JInt (Z.of_nat (S (size reg))))) ∧
  (∀ esp_id t, is_Some (reg !! esp_id) →
     root timestamp (start_measurement esp_id t reg).2 !! "active_devices"
       = root timestamp reg !! "active_devices").
Proof.
  assert (Hroot : ∀ r : registry,
            root timestamp r !! "active_devices"
            = Some (JInt (Z.of_nat (size r)))).
  { intros r. unfold root.
    rewrite lookup_insert_ne by done. rewrite lookup_insert_ne by done.
    by rewrite lookup_insert_eq. }
  split; [| split].
  - rewrite Hroot. simpl. by rewrite length_fmap, length_map_to_list.
  - intros esp_id t Hnew. rewrite Hroot. simpl.
    by rewrite map_size_insert_None.
  - intros esp_id t Hin. rewrite !Hroot. simpl.
    by rewrite map_size_insert_Some.
Qed.

(** ** Polling *)

Lemma lookup_status_message (s m : string) (k : string) :
  ({[ "status" := JStr s; "message" := JStr m ]} : pydict) !! k =
    if decide (k = "status") then Some (JStr s)
    else if decide (k = "message") then Some (JStr m) else None.
Proof.
  rewrite lookup_insert. case_decide; [by subst; rewrite decide_True |].
  rewrite decide_False by done.
  rewrite lookup_singleton. case_decide; [by subst; rewrite decide_True |].
  by rewrite decide_False.
Qed.

(** The two forms of a response of [get_latest]. *)
Lemma get_latest_forms (esp_id : string) (now : float) (reg : registry) :
  (∃ info, reg !! esp_id = Some info ∧ ready info = true ∧
           collecting info = false ∧
           PrimFloat.ltb stale_after (now - last_update info) = false ∧
           (get_latest esp_id now reg).1
             = <["status" := JStr "ready"]> (latest info)) ∨
  (∃ s m, s ∈ ["idle"; "collecting"; "stale"] ∧ m ≠ "Waiting..." ∧
          (get_latest esp_id now reg).1
            = {[ "status" := JStr s; "message" := JStr m ]}).
Proof.
  unfold get_latest. destruct (reg !! esp_id) as [info |] eqn:Hin.
  - destruct (PrimFloat.ltb stale_after (now - last_update info)) eqn:Hold,
      (ready info) eqn:Hr, (collecting info) eqn:Hc; simpl;
      try (right; eexists _, _; split; [| split; [| reflexivity]];
           [set_solver | discriminate]).
    left. exists info. by rewrite Hr, Hc, Hold.
  - right. eexists _, _. split; [| split; [| reflexivity]];
      [set_solver | discriminate].
Qed.

(** X5. A poll answers with one of the four statuses. Data travel only in
    a ["ready"] answer: any answer that has an entry besides ["status"] and
    ["message"] is a ["ready"] answer for a registered, ready device whose
    entry is not older than the threshold. *)
Theorem poll_response_shape (esp_id : string) (now : float) (reg : registry) :
  let response := (get_latest esp_id now reg).1 in
  (∃ s, response_status response = Some s ∧
        s ∈ ["idle"; "collecting"; "stale"; "ready"]) ∧
  (∀ k, k ≠ "status" → k ≠ "message" → is_Some (response !! k) →
        response_status response = Some "ready" ∧
        ∃ info, reg !! esp_id = Some info ∧ ready info = true ∧
                PrimFloat.ltb stale_after (now - last_update info) = false ∧
                response !! k = latest info !! k).
Proof.
  intros response. unfold response.
  destruct (get_latest_forms esp_id now reg)
    as [(info & Hin & Hr & Hc & Hold & ->) | (s & m & Hs & _ & ->)].
  - split.
    + exists "ready". rewrite response_status_insert. split; [done | set_solver].
    + intros k Hk _ _. rewrite response_status_insert. split; [done |].
      exists info. by rewrite lookup_insert_ne.
  - split.
    + exists s. split; [| set_unfold; tauto].
      unfold response_status. by rewrite lookup_insert_eq.
    + intros k Hk Hm Hsome. rewrite lookup_status_message in Hsome.
      rewrite !decide_False in Hsome by done. by destruct Hsome.
Qed.

(** X6. The last [return] of [get_latest] is never reached: no poll
    answers with the message ["Waiting..."]. *)
Theorem get_latest_never_waiting (esp_id : string) (now : float)
    (reg : registry) :
  (get_latest esp_id now reg).1
  ≠ {[ "status" := JStr "idle"; "message" := JStr "Waiting..." ]}.
Proof.
  destruct (get_latest_forms esp_id now reg)
    as [(info & _ & _ & _ & _ & ->) | (s & m & _ & Hm & ->)]; intros Heq.
  - apply (f_equal (λ d : pydict, d !! "status")) in Heq.
    rewrite lookup_insert_eq, lookup_status_message in Heq. by simplify_eq/=.
  - apply (f_equal (λ d : pydict, d !! "message")) in Heq.
    rewrite !lookup_status_message in Heq. by simplify_eq/=.
Qed.

(** X9. After a poll the device is registered, and polling again, at any
    time, changes nothing more. *)
Theorem get_latest_twice (esp_id : string) (t1 t2 : float) (reg : registry) :
  is_Some ((get_latest esp_id t1 reg).2 !! esp_id) ∧
  (get_latest esp_id t2 (get_latest esp_id t1 reg).2).2
    = (get_latest esp_id t1 reg).2.
Proof.
  assert (Hin : is_Some ((get_latest esp_id t1 reg).2 !! esp_id)).
  { destruct (reg !! esp_id) as [info |] eqn:Hin.
    - rewrite (get_latest_existing _ _ _ info Hin). by rewrite Hin.
    - unfold get_latest. rewrite Hin. simpl. by rewrite lookup_insert_eq. }
  split; [exact Hin |]. destruct Hin as [info Hin].
  by apply get_latest_existing with info.
Qed.

(** ** Requests, one after the other *)

Section Requests.

Variable float_validator : json → option float.
Variable int_validator : json → option Z.
Variable str_validator : json → option string.
Variable str_exc : ValidationError → string.

Local Abbreviation validate :=
  (ECGData_validate float_validator int_validator str_validator).
Local Abbreviation upload :=
  (receive_data float_validator int_validator str_validator str_exc).
Local Abbreviation step :=
  (handle float_validator int_validator str_validator str_exc).
Local Abbreviation exec :=
  (run float_validator int_validator str_validator str_exc).
Local Abbreviation valid :=
  (valid_payload float_validator int_validator str_validator).

(** What a request about one device does to the registry. *)
Lemma step_device (reg : registry) (now : float) (r : request)
    (esp_id : string) :
  request_device r = Some esp_id →
  step reg (now, r) = reg ∨
  step reg (now, r) = delete esp_id reg ∨
  ∃ info, step reg (now, r) = <[esp_id := info]> reg.
Proof.
  destruct r as [id | id payload | id | | id |]; intros [= ->]; simpl.
  - right. right. by eexists.
  - unfold receive_data. destruct (validate payload); simpl; [by left |].
    right. right. by eexists.
  - unfold get_latest. destruct (reg !! esp_id) eqn:Hin.
    + left. by repeat case_match.
    + right. right. by eexists.
  - unfold clear_device. destruct (reg !! esp_id); simpl; [| by left].
    right. by left.
Qed.

(** X3. A start signal, an upload, a poll or a clear for one device leaves
    the entry of every other device as it was. *)
Theorem other_devices_untouched (reg : registry) (now : float) (r : request)
    (esp_id other : string) :
  request_device r = Some esp_id → other ≠ esp_id →
  step reg (now, r) !! other = reg !! other.
Proof.
  intros Hr Hne.
  destruct (step_device reg now r esp_id Hr) as [-> | [-> | [info ->]]].
  - done.
  - by apply lookup_delete_ne.
  - by apply lookup_insert_ne.
Qed.

(** X10. The last writer wins. A start signal or an accepted upload for a
    device, and a clearing of the registry, erase what the request before
    them did for that device: the registry is the one the later request
    alone would have produced. *)
Theorem later_write_overwrites (reg : registry) (t1 t2 : float)
    (r1 r2 : request) (esp_id : string) :
  request_device r1 = Some esp_id →
  overwrites esp_id valid r2 = true →
  step (step reg (t1, r1)) (t2, r2) = step reg (t2, r2).
Proof.
  intros Hr1 Hr2.
  assert (Hw : step (step reg (t1, r1)) (t2, r2) = ∅ ∧ step reg (t2, r2) = ∅ ∨
               ∃ info, ∀ reg', step reg' (t2, r2) = <[esp_id := info]> reg').
  { destruct r2 as [id | id payload | id | | id |]; simpl in Hr2; try done.
    - apply bool_decide_eq_true in Hr2 as ->. right. by eexists.
    - apply andb_true_iff in Hr2 as [Hid Hv].
      apply bool_decide_eq_true in Hid as ->. right.
      unfold valid_payload in Hv.
      destruct (validate payload) as [e | ecg_data] eqn:Hvalid; [done |].
      eexists. intros reg'. simpl. unfold receive_data. by rewrite Hvalid.
    - by left. }
  destruct Hw as [[-> ->] | [info Hw]]; [done |].
  rewrite !Hw.
  destruct (step_device reg t1 r1 esp_id Hr1) as [-> | [-> | [info' ->]]].
  - done.
  - apply insert_delete_eq.
  - apply insert_insert_eq.
Qed.

(** One request keeps the shapes of the entries. *)
Lemma entry_shape_step (reg : registry) (event : float * request) :
  (∀ esp_id info, reg !! esp_id = Some info → entry_shape info) →
  ∀ esp_id info, step reg event !! esp_id = Some info → entry_shape info.
Proof.
  intros Hreg esp_id info.
  destruct event as [now [id | id payload | id | | id |]]; simpl.
  - rewrite lookup_insert. case_decide; [| apply Hreg].
    intros [= <-]. right. left. done.
  - unfold receive_data.
    destruct (validate payload) as [e | ecg_data] eqn:Hv; simpl;
      [apply Hreg |].
    rewrite lookup_insert. case_decide; [| apply Hreg].
    intros [= <-]. right. right. simpl.
    repeat split; try done. by eapply valid_payload_nonempty.
  - unfold get_latest. destruct (reg !! id) eqn:Hid.
    + repeat case_match; simpl; apply Hreg.
    + simpl. rewrite lookup_insert. case_decide; [| apply Hreg].
      intros [= <-]. left. done.
  - apply Hreg.
  - unfold clear_device. destruct (reg !! id) eqn:Hid; simpl; [| apply Hreg].
    rewrite lookup_delete. case_decide; [done | apply Hreg].
  - by rewrite lookup_empty.
Qed.

Lemma entry_shape_run (trace : list (float * request)) (esp_id : string)
    (info : DeviceInfo) :
  exec trace device_data0 !! esp_id = Some info → entry_shape info.
Proof.
  revert esp_id info.
  induction trace as [| event trace IH] using rev_ind.
  - intros esp_id info. unfold device_data0. simpl. by rewrite lookup_empty.
  - intros esp_id info. rewrite run_snoc. by apply entry_shape_step.
Qed.

(** X7. After any sequence of requests served from the empty registry,
    every entry has one of three shapes: idle with no payload, collecting
    with no payload, or ready with a payload; the stored status always
    agrees with the two flags, and the flags are never both raised. *)
Theorem reachable_entry_shape (trace : list (float * request))
    (esp_id : string) (info : DeviceInfo) :
  exec trace device_data0 !! esp_id = Some info →
  entry_shape info ∧
  (status info = "ready" ↔ ready info = true) ∧
  (status info = "collecting" ↔ collecting info = true) ∧
  (ready info && collecting info = false) ∧
  (dict_truthy (latest info) = ready info).
Proof.
  intros Hin.
  pose proof (entry_shape_run trace esp_id info Hin) as Hshape.
  split; [exact Hshape |].
  destruct Hshape as [(Hs & Hr & Hc & Hl) | [(Hs & Hr & Hc & Hl) | (Hs & Hr & Hc & Hl)]];
    rewrite Hs, Hr, Hc; repeat split; try done.
  - by rewrite Hl.
  - by rewrite Hl.
  - by apply dict_truthy_nonempty.
Qed.

(** X8. After any sequence of requests served from the empty registry, a
    poll reports the status the listing shows for the device, except that
    it reports ["stale"] when the entry is ready and the clock of the poll
    is more than the threshold past the stored [last_update]. *)
Theorem poll_agrees_with_listing (trace : list (float * request))
    (esp_id : string) (now t_list : float) (s : DeviceSummary)
    (info : DeviceInfo) :
  s ∈ (list_devices t_list (exec trace device_data0)).2 →
  sum_esp_id s = esp_id →
  exec trace device_data0 !! esp_id = Some info →
  response_status (get_latest esp_id now (exec trace device_data0)).1 =
    Some (if PrimFloat.ltb stale_after (now - last_update info) && sum_ready s
          then "stale" else sum_status s).
Proof.
  intros Hs Hid Hin.
  apply elem_of_list_devices in Hs as (id & info' & Hin' & ->).
  simpl in Hid. subst id. rewrite Hin in Hin'. injection Hin' as <-. simpl.
  destruct (entry_shape_run trace esp_id info Hin)
    as [(Hs & Hr & Hc & _) | [(Hs & Hr & Hc & _) | (Hs & Hr & Hc & _)]];
    rewrite Hs, Hr, andb_comm; simpl.
  - by apply get_latest_idle with info.
  - by apply get_latest_collecting with info.
  - rewrite (get_latest_ready_status _ _ _ info) by done. done.
Qed.

End Requests.

(** ** Validation *)

Section Validation.

Variable float_validator : json → option float.
Variable int_validator : json → option Z.
Variable str_validator : json → option string.
Variable str_exc : ValidationError → string.

Local Abbreviation validate :=
  (ECGData_validate float_validator int_validator str_validator).
Local Abbreviation upload :=
  (receive_data float_validator int_validator str_validator str_exc).

Lemma required_field_inr {T} (validator : json → option T) (payload : pydict)
    (name : string) (x : T) :
  required_field validator payload name = inr x ↔
  ∃ v, payload !! name = Some v ∧ validator v = Some x.
Proof.
  unfold required_field. destruct (payload !! name) as [v |].
  - destruct (validator v) as [y |] eqn:Hv; split.
    + intros [= ->]. by exists v.
    + intros (v' & [= <-] & Hv'). congruence.
    + done.
    + intros (v' & [= <-] & Hv'). congruence.
  - split; [done | by intros (v & ? & _)].
Qed.

Lemma default_field_inr {T} (validator : json → option T) (default : T)
    (payload : pydict) (name : string) (x : T) :
  default_field validator default payload name = inr x ↔
  (payload !! name = None ∧ x = default) ∨
  (∃ v, payload !! name = Some v ∧ validator v = Some x).
Proof.
  unfold default_field. destruct (payload !! name) as [v |].
  - destruct (validator v) as [y |] eqn:Hv; split.
    + intros [= ->]. right. by exists v.
    + intros [[? _] | (v' & [= <-] & Hv')]; [done | congruence].
    + done.
    + intros [[? _] | (v' & [= <-] & Hv')]; [done | congruence].
  - split.
    + intros [= ->]. by left.
    + intros [[_ ->] | (v & ? & _)]; done.
Qed.

(** The validated model, field by field. *)
Lemma validate_inr (payload : pydict) (d : ECGData) :
  validate payload = inr d ↔
  required_field float_validator payload "hr" = inr (hr d) ∧
  required_field float_validator payload "spo2" = inr (spo2 d) ∧
  required_field (list_float_validator float_validator) payload "ecg"
    = inr (ecg d) ∧
  default_field (optional_validator int_validator) (Some 0%Z) payload "rest_ecg"
    = inr (rest_ecg d) ∧
  default_field (optional_validator str_validator) None payload "timestamp"
    = inr (timestamp d).
Proof.
  unfold ECGData_validate.
  destruct (required_field float_validator payload "hr") as [? | h],
    (required_field float_validator payload "spo2") as [? | s],
    (required_field (list_float_validator float_validator) payload "ecg")
      as [? | e],
    (default_field (optional_validator int_validator) (Some 0%Z) payload
       "rest_ecg") as [? | r],
    (default_field (optional_validator str_validator) None payload
       "timestamp") as [? | t];
    (split; [intros [= <-]; done | intros (? & ? & ? & ? & ?)]);
    try done.
  destruct d. simpl in *. by simplify_eq.
Qed.

Lemma optional_validator_Some {T} (validator : json → option T) (v : json) :
  is_Some (optional_validator validator v) ↔ v = JNull ∨ is_Some (validator v).
Proof.
  destruct v; simpl; rewrite ?fmap_is_Some; try (split; [by right | ]);
    try (intros [[=] | H]; exact H).
  split; [by left | done].
Qed.

(** X11. Keys the model does not declare are neither rejected nor dropped:
    the payload is judged as it would be without them, and an accepted
    payload is stored with them. *)
Theorem validate_ignores_other_keys (payload : pydict) (k : string) (v : json)
    (esp_id : string) (now : float) (reg : registry) :
  k ∉ ["hr"; "spo2"; "ecg"; "rest_ecg"; "timestamp"] →
  validate (<[k := v]> payload) = validate payload ∧
  (upload esp_id (<[k := v]> payload) now reg).1
    = (upload esp_id payload now reg).1 ∧
  (∀ d, validate payload = inr d →
        (upload esp_id (<[k := v]> payload) now reg).2 !! esp_id
          = Some (ready_info (<[k := v]> payload) now)).
Proof.
  intros Hk.
  assert (Hv : validate (<[k := v]> payload) = validate payload).
  { unfold ECGData_validate, required_field, default_field.
    rewrite !lookup_insert_ne by (intros ->; set_solver). done. }
  split; [exact Hv |]. split.
  - unfold receive_data. rewrite Hv. by destruct (validate payload).
  - intros d Hd. rewrite <- Hv in Hd.
    rewrite (receive_data_valid _ _ _ _ _ _ _ _ d Hd). simpl.
    apply lookup_insert_eq.
Qed.

(** X12. A payload is accepted exactly when ["hr"] and ["spo2"] are
    present and pass the [float] validator, ["ecg"] is present and is a
    sequence of numbers, and each of ["rest_ecg"] and ["timestamp"] is
    absent, null, or passes its validator. *)
Theorem validate_accepts_iff (payload : pydict) :
  (∃ d, validate payload = inr d) ↔
  (∃ v, payload !! "hr" = Some v ∧ is_Some (float_validator v)) ∧
  (∃ v, payload !! "spo2" = Some v ∧ is_Some (float_validator v)) ∧
  (∃ v, payload !! "ecg" = Some v ∧ sequence_of_numbers float_validator v) ∧
  (∀ v, payload !! "rest_ecg" = Some v →
        v = JNull ∨ is_Some (int_validator v)) ∧
  (∀ v, payload !! "timestamp" = Some v →
        v = JNull ∨ is_Some (str_validator v)).
Proof.
  split.
  - intros [d Hd]. apply validate_inr in Hd as (Hh & Hs & He & Hr & Ht).
    apply required_field_inr in Hh as (vh & Hh & Hvh).
    apply required_field_inr in Hs as (vs & Hs & Hvs).
    apply required_field_inr in He as (ve & He & Hve).
    apply default_field_inr in Hr. apply default_field_inr in Ht.
    split; [exists vh; by rewrite Hvh |].
    split; [exists vs; by rewrite Hvs |].
    split.
    { exists ve. split; [done |].
      apply list_float_validator_numbers. by rewrite Hve. }
    split.
    + intros v Hv. apply optional_validator_Some.
      destruct Hr as [[Hr _] | (v' & Hr & Hv')]; [congruence |].
      rewrite Hr in Hv. injection Hv as ->. by rewrite Hv'.
    + intros v Hv. apply optional_validator_Some.
      destruct Ht as [[Ht _] | (v' & Ht & Hv')]; [congruence |].
      rewrite Ht in Hv. injection Hv as ->. by rewrite Hv'.
  - intros ((vh & Hh & [h Hvh]) & (vs & Hs & [s Hvs]) & (ve & He & Hve)
            & Hr & Ht).
    apply list_float_validator_numbers in Hve as [e Hve].
    assert (∃ r, default_field (optional_validator int_validator) (Some 0%Z)
                   payload "rest_ecg" = inr r) as [r Hr'].
    { unfold default_field. destruct (payload !! "rest_ecg") as [v |];
        [| by eexists].
      destruct (proj2 (optional_validator_Some int_validator v) (Hr v eq_refl))
        as [r ->]. by eexists. }
    assert (∃ t, default_field (optional_validator str_validator) None
                   payload "timestamp" = inr t) as [t Ht'].
    { unfold default_field. destruct (payload !! "timestamp") as [v |];
        [| by eexists].
      destruct (proj2 (optional_validator_Some str_validator v) (Ht v eq_refl))
        as [t ->]. by eexists. }
    exists (mkECGData h s e r t). apply validate_inr. simpl.
    split; [apply required_field_inr; by exists vh |].
    split; [apply required_field_inr; by exists vs |].
    split; [apply required_field_inr; by exists ve |]. done.
Qed.

(** X13. What the validated model holds: a missing ["rest_ecg"] reads as
    0 and a missing ["timestamp"] as none, a null in either reads as none,
    and the model has as many ECG samples as the posted array has items. *)
Theorem validate_defaults (payload : pydict) (d : ECGData) :
  validate payload = inr d →
  (payload !! "rest_ecg" = None → rest_ecg d = Some 0%Z) ∧
  (payload !! "rest_ecg" = Some JNull → rest_ecg d = None) ∧
  (payload !! "timestamp" = None → timestamp d = None) ∧
  (payload !! "timestamp" = Some JNull → timestamp d = None) ∧
  (∃ l, payload !! "ecg" = Some (JList l) ∧ length (ecg d) = length l).
Proof.
  intros Hd. apply validate_inr in Hd as (_ & _ & He & Hr & Ht).
  apply default_field_inr in Hr. apply default_field_inr in Ht.
  apply required_field_inr in He as (ve & He & Hve).
  split; [| split; [| split; [| split]]].
  - intros Hn. destruct Hr as [[_ ->] | (v & Hv & _)]; [done | congruence].
  - intros Hn. destruct Hr as [[Hr _] | (v & Hv & Hval)]; [congruence |].
    rewrite Hn in Hv. injection Hv as <-. simpl in Hval. congruence.
  - intros Hn. destruct Ht as [[_ ->] | (v & Hv & _)]; [done | congruence].
  - intros Hn. destruct Ht as [[Ht _] | (v & Hv & Hval)]; [congruence |].
    rewrite Hn in Hv. injection Hv as <-. simpl in Hval. congruence.
  - destruct ve; simpl in Hve; try done.
    exists l. split; [done |]. symmetry. by eapply length_mapM.
Qed.

End Validation.

(** ** The debug view *)

(** X14. The debug view of a device shows the status, the two flags and
    the has-data flag the listing shows for it, together with the stored
    payload and its keys; it reports an error exactly for the devices the
    listing does not have. *)
Theorem debug_matches_listing (esp_id : string) (now : float) (reg : registry) :
  (∀ s, s ∈ (list_devices now reg).2 → sum_esp_id s = esp_id →
        ∃ d info, debug_device esp_id now reg = inr d ∧
                  reg !! esp_id = Some info ∧
                  dbg_status d = sum_status s ∧
                  dbg_ready d = sum_ready s ∧
                  dbg_collecting d = sum_collecting s ∧
                  dbg_has_latest_data d = sum_has_data s ∧
                  dbg_data d = latest info ∧
                  (∀ k, k ∈ dbg_latest_data_keys d ↔ is_Some (latest info !! k))) ∧
  (debug_device esp_id now reg = inl {[ "error" := JStr "Device not found" ]} ↔
   esp_id ∉ sum_esp_id <$> (list_devices now reg).2).
Proof.
  split.
  - intros s Hs Hid.
    apply elem_of_list_devices in Hs as (id & info & Hin & ->).
    simpl in Hid. subst id. unfold debug_device. rewrite Hin.
    eexists _, info. split; [reflexivity |]. simpl.
    repeat split; try done.
    + intros Hk. apply list_elem_of_fmap in Hk as ([k' v] & -> & Hk).
      apply elem_of_map_to_list in Hk. by exists v.
    + intros [v Hk]. apply list_elem_of_fmap. exists (k, v).
      split; [done | by apply elem_of_map_to_list].
  - rewrite list_devices_ids. unfold debug_device.
    destruct (reg !! esp_id) as [info |] eqn:Hin.
    + split; [done |]. intros Hnot. exfalso. apply Hnot.
      apply list_elem_of_fmap. exists (esp_id, info).
      split; [done | by apply elem_of_map_to_list].
    + split; [| done]. intros _ Hk.
      apply list_elem_of_fmap in Hk as ([k' v] & -> & Hk).
      apply elem_of_map_to_list in Hk. simpl in Hin. congruence.
Qed.

(** * Properties of [dashboard/app.py] *)

Lemma status_is_response (data : pydict) (s s' : string) :
  response_status data = Some s → status_is data s' = String.eqb s s'.
Proof.
  unfold response_status, status_is.
  destruct (data !! "status") as [[] |]; try done. by intros [= ->].
Qed.

(** X15. Whatever the registry holds, the loop never takes a poll's answer
    for ["waiting"] or ["unknown_id"], statuses the backend does not send:
    the only way out of the loop, short of its deadline, is an answer with
    a positive ["hr"], and such an answer is a ["ready"] one, which the
    loop keeps whole. On an answer that is not ["ready"] the loop goes on
    waiting. *)
Theorem dashboard_poll_backend (esp_id : string) (now : float) (reg : registry) :
  let data := (get_latest esp_id now reg).1 in
  dashboard_poll data ≠ StillCollecting ∧
  dashboard_poll data ≠ NotRecognized ∧
  (loop_breaks (dashboard_poll data) = true →
     dashboard_poll data = DataReceived data ∧
     response_status data = Some "ready" ∧
     ∃ v, data !! "hr" = Some v ∧ json_gt_zero v = Some true) ∧
  (response_status data ≠ Some "ready" →
     dashboard_poll data = WaitingForValidData).
Proof.
  intros data. unfold data.
  destruct (get_latest_forms esp_id now reg)
    as [(info & _ & _ & _ & _ & ->) | (s & m & Hs & _ & ->)].
  - unfold dashboard_poll.
    rewrite !(status_is_response _ "ready") by apply response_status_insert.
    simpl. rewrite response_status_insert.
    destruct (_ !! "hr") as [v |]; [| by repeat split].
    destruct (json_gt_zero v) as [[] |] eqn:Hv; repeat split; try done.
    by exists v.
  - assert (Hst : response_status
                    ({[ "status" := JStr s; "message" := JStr m ]} : pydict)
                  = Some s).
    { unfold response_status. by rewrite lookup_insert_eq. }
    unfold dashboard_poll. rewrite !(status_is_response _ s) by done.
    rewrite lookup_status_message. simpl.
    assert (String.eqb s "waiting" = false ∧ String.eqb s "unknown_id" = false)
      as [-> ->].
    { set_unfold. destruct Hs as [-> | [-> | [-> | []]]]; by split. }
    by repeat split.
Qed.

(** An object can be encoded when each of its values can. *)
Lemma json_compliant_dict (d : pydict) :
  json_compliant (JDict d) = true ↔
  map_Forall (λ _ v, json_compliant v = true) d.
Proof.
  simpl.
  apply (map_fold_weak_ind
           (λ (ok : bool) (m : pydict),
              ok = true ↔ map_Forall (λ _ v, json_compliant v = true) m)).
  - split; [intros _; apply map_Forall_empty | done].
  - intros k v m ok Hk IH. rewrite andb_true_iff, IH.
    by rewrite map_Forall_insert.
Qed.

Section Pipeline.

Variable float_validator : json → option float.
Variable int_validator : json → option Z.
Variable str_validator : json → option string.
Variable str_exc : ValidationError → string.

Local Abbreviation validate :=
  (ECGData_validate float_validator int_validator str_validator).
Local Abbreviation upload :=
  (receive_data float_validator int_validator str_validator str_exc).

(** The answer to a poll made in time after an accepted upload. *)
Lemma poll_after_upload (esp_id : string) (payload : pydict)
    (t_upload t_poll : float) (reg : registry) (d : ECGData) :
  validate payload = inr d →
  PrimFloat.ltb stale_after (t_poll - t_upload) = false →
  (get_latest esp_id t_poll (upload esp_id payload t_upload reg).2).1
  = <["status" := JStr "ready"]> payload.
Proof.
  intros Hv Hfresh. rewrite (receive_data_valid _ _ _ _ _ _ _ _ d Hv). simpl.
  rewrite (get_latest_ready _ _ _ (ready_info payload t_upload));
    [| apply lookup_insert_eq | done | done].
  simpl. by rewrite Hfresh.
Qed.


(** X19. A payload whose ["rest_ecg"] is null passes validation and is
    served as it was posted; the loop keeps it when its ["hr"] is above
    zero, and the preparation of the features then raises on the null,
    whatever the age and the sex entered. *)
Theorem null_rest_ecg_breaks_features (esp_id : string) (payload : pydict)
    (t_upload t_poll : float) (reg : registry) (d : ECGData)
    (age : Z) (sex : string) :
  validate payload = inr d →
  payload !! "rest_ecg" = Some JNull →
  PrimFloat.ltb stale_after (t_poll - t_upload) = false →
  let data :=
    (get_latest esp_id t_poll (upload esp_id payload t_upload reg).2).1 in
  rest_ecg d = None ∧
  data !! "rest_ecg" = Some JNull ∧
  prepare_features age sex data = None.
Proof.
  intros Hv Hnull Hfresh data. unfold data.
  rewrite (poll_after_upload _ _ _ _ _ d Hv Hfresh).
  assert (Hdata : (<["status" := JStr "ready"]> payload : pydict) !! "rest_ecg"
                  = Some JNull) by (by rewrite lookup_insert_ne).
  split; [| split; [exact Hdata |]].
  - apply validate_inr in Hv as (_ & _ & _ & Hr & _).
    apply default_field_inr in Hr as [[Hr _] | (v' & Hr & Hv')]; [congruence |].
    rewrite Hnull in Hr. injection Hr as <-. simpl in Hv'. congruence.
  - unfold prepare_features, get_or_zero. by rewrite Hdata.
Qed.

End Pipeline.

(** ** The features of the prediction *)

(** Clipping a number to the integers from [lo] to [hi]. *)
Lemma clip_in_range (lo hi : Z) (v : pynum) :
  (lo ≤ hi)%Z →
  PrimFloat.leb (float_of_Z lo) (float_of_Z lo) = true →
  PrimFloat.leb (float_of_Z hi) (float_of_Z hi) = true →
  num_le (PInt lo) (py_max (PInt lo) (py_min v (PInt hi))) = true ∧
  num_le (py_max (PInt lo) (py_min v (PInt hi))) (PInt hi) = true.
Proof.
  intros Hle Hlo Hhi. unfold py_max, py_min.
  destruct v as [n | x]; simpl.
  - destruct (hi <? n)%Z eqn:H1; simpl.
    + destruct (lo <? hi)%Z eqn:H2; simpl; split; lia.
    + destruct (lo <? n)%Z eqn:H2; simpl; split; lia.
  - destruct (PrimFloat.ltb (float_of_Z hi) x) eqn:H1; simpl.
    + destruct (lo <? hi)%Z eqn:H2; simpl; split; lia.
    + destruct (PrimFloat.ltb (float_of_Z lo) x) eqn:H2; simpl.
      * split; [by apply ltb_leb |].
        apply not_ltb_leb; [done | | done].
        by apply ltb_leb_refl_r with (float_of_Z lo).
      * split; lia.
Qed.

(** X17. The row handed to the model is always inside the ranges of the
    training data, whatever was entered and whatever numbers the reading
    holds, infinities and NaN included: the age from 29 to 77, the sex 0 or
    1, the heart rate from 71 to 202 and the resting-ECG category from 0 to
    2. *)
Theorem prepare_features_in_range (age : Z) (sex : string)
    (latest_data : pydict) (f : Features) :
  prepare_features age sex latest_data = Some f →
  num_le (PInt 29) (feat_age f) = true ∧ num_le (feat_age f) (PInt 77) = true ∧
  (feat_sex f = 0%Z ∨ feat_sex f = 1%Z) ∧
  num_le (PInt 71) (feat_thalach f) = true ∧
  num_le (feat_thalach f) (PInt 202) = true ∧
  num_le (PInt 0) (feat_restecg f) = true ∧
  num_le (feat_restecg f) (PInt 2) = true.
Proof.
  unfold prepare_features. intros Hf.
  destruct (json_num (get_or_zero latest_data "rest_ecg")) as [r |]; [| done].
  destruct (json_num (get_or_zero latest_data "hr")) as [h |]; [| done].
  simpl in Hf. injection Hf as <-. simpl.
  destruct (clip_in_range 29 77 (PInt age)) as [? ?]; [lia | done | done |].
  destruct (clip_in_range 71 202 h) as [? ?]; [lia | done | done |].
  destruct (clip_in_range 0 2 r) as [? ?]; [lia | done | done |].
  repeat split; try done.
  destruct (String.eqb sex "M"); auto.
Qed.

(** X18. Values inside the ranges pass unchanged: an integer age, heart
    rate and category within their bounds, and a fractional heart rate
    above 71 and at most 202. A reading without ["rest_ecg"] gives the
    category 0. *)
Theorem prepare_features_keeps (age : Z) (sex : string) (latest_data : pydict)
    (h : json) (r : Z) :
  (29 ≤ age ≤ 77)%Z →
  latest_data !! "hr" = Some h →
  (∃ n, h = JInt n ∧ (71 ≤ n ≤ 202)%Z) ∨
    (∃ x, h = JFloat x ∧ PrimFloat.ltb 71 x = true ∧
          PrimFloat.leb x 202 = true) →
  get_or_zero latest_data "rest_ecg" = JInt r → (0 ≤ r ≤ 2)%Z →
  ∃ hr_num, json_num h = Some hr_num ∧
    prepare_features age sex latest_data =
      Some {| feat_age := PInt age;
              feat_sex := if String.eqb sex "M" then 1%Z else 0%Z;
              feat_thalach := hr_num;
              feat_restecg := PInt r |} ∧
    (latest_data !! "rest_ecg" = None → r = 0%Z).
Proof.
  intros Hage Hh Hhr Hr Hrange.
  assert (Hint : ∀ lo hi n : Z, (lo ≤ n ≤ hi)%Z →
            py_max (PInt lo) (py_min (PInt n) (PInt hi)) = PInt n).
  { intros lo hi n Hn. unfold py_max, py_min. simpl.
    destruct (hi <? n)%Z eqn:H1; [lia |]. simpl.
    destruct (lo <? n)%Z eqn:H2; [done |]. f_equal. lia. }
  assert (Hnone : latest_data !! "rest_ecg" = None → r = 0%Z).
  { intros Hn. unfold get_or_zero in Hr. rewrite Hn in Hr. simpl in Hr.
    by injection Hr. }
  unfold prepare_features. rewrite Hr. simpl.
  unfold get_or_zero at 1. rewrite Hh. simpl.
  destruct Hhr as [(n & -> & Hn) | (x & -> & Hlo & Hhi)]; simpl.
  - exists (PInt n). split; [done |]. split; [| done].
    by rewrite !Hint.
  - exists (PFloat x). split; [done |]. split; [| done].
    rewrite !Hint by done. do 3 f_equal.
    unfold py_max, py_min. simpl.
    change (float_of_Z 202) with 202%float.
    change (float_of_Z 71) with 71%float.
    rewrite (leb_not_ltb x 202 Hhi). simpl. by rewrite Hlo.
Qed.

(** * A further property of the classifier *)

(** X20. The result for a non-empty sequence is decided by one of its
    samples: it is the category of the absolute z-score of a sample of the
    sequence, whatever the order in which the array is summed. *)
Theorem restecg_decided_by_sample (add_reduce : list float → float)
    (ecg_values : list float) :
  ecg_values ≠ [] →
  ∃ v, v ∈ ecg_values ∧
       process_ecg_to_restecg add_reduce ecg_values
         = Some (category (PrimFloat.abs (z_score add_reduce ecg_values v))).
Proof.
  intros Hne.
  destruct (max_abs_z_nonempty add_reduce ecg_values Hne) as [m Hm].
  rewrite restecg_refines, Hm.
  unfold max_abs_z in Hm. apply np_max_elem in Hm.
  apply list_elem_of_fmap in Hm as (v & -> & Hv).
  exists v. split; [done |]. by destruct ecg_values.
Qed.

(** * Concrete runs of the further properties *)

Lemma null_rest_payload_valid :
  ECGData_validate strict_float strict_int strict_str null_rest_payload
  = inr null_rest_ecg.
Proof. vm_compute. reflexivity. Defined.

Lemma other_devices_untouched_witness :
  request_device (StartSignal "esp32_01") = Some "esp32_01" ∧
  "esp32_02" ≠ "esp32_01" ∧
  handle strict_float strict_int strict_str field_names
    (start_measurement "esp32_02" 0%float device_data0).2
    (5%float, StartSignal "esp32_01") !! "esp32_02"
  = Some (collecting_info 0%float).
Proof.
  assert (Hne : "esp32_02" ≠ "esp32_01") by discriminate.
  split; [reflexivity |]. split; [exact Hne |].
  rewrite (other_devices_untouched strict_float strict_int strict_str
             field_names
             (start_measurement "esp32_02" 0%float device_data0).2
             5%float (StartSignal "esp32_01") "esp32_01" "esp32_02"
             eq_refl Hne).
  reflexivity.
Defined.

Lemma later_write_overwrites_witness :
  request_device (Poll "esp32_01") = Some "esp32_01" ∧
  overwrites "esp32_01" (valid_payload strict_float strict_int strict_str)
    (Upload "esp32_01" sample_payload) = true ∧
  handle strict_float strict_int strict_str field_names
    (handle strict_float strict_int strict_str field_names device_data0
       (0%float, Poll "esp32_01"))
    (10%float, Upload "esp32_01" sample_payload)
  = {[ "esp32_01" := ready_info sample_payload 10%float ]}.
Proof.
  assert (Hw : overwrites "esp32_01"
                 (valid_payload strict_float strict_int strict_str)
                 (Upload "esp32_01" sample_payload) = true)
    by (vm_compute; reflexivity).
  split; [reflexivity |]. split; [exact Hw |].
  rewrite (later_write_overwrites strict_float strict_int strict_str
             field_names device_data0 0%float 10%float (Poll "esp32_01")
             (Upload "esp32_01" sample_payload) "esp32_01" eq_refl Hw).
  vm_compute. reflexivity.
Defined.

Lemma reachable_entry_shape_witness :
  run strict_float strict_int strict_str field_names sample_trace device_data0
    !! "esp32_01" = Some (ready_info sample_payload 10%float) ∧
  entry_shape (ready_info sample_payload 10%float).
Proof.
  split; [exact sample_trace_entry |].
  exact (proj1 (reachable_entry_shape strict_float strict_int strict_str
                  field_names sample_trace "esp32_01"
                  (ready_info sample_payload 10%float) sample_trace_entry)).
Defined.

Lemma sample_trace_listed :
  device_summary 1000%float ("esp32_01", ready_info sample_payload 10%float)
  ∈ (list_devices 1000%float
       (run strict_float strict_int strict_str field_names sample_trace
          device_data0)).2.
Proof.
  apply elem_of_list_devices.
  exists "esp32_01", (ready_info sample_payload 10%float).
  split; [exact sample_trace_entry | reflexivity].
Defined.

Lemma poll_agrees_with_listing_witness :
  device_summary 1000%float ("esp32_01", ready_info sample_payload 10%float)
  ∈ (list_devices 1000%float
       (run strict_float strict_int strict_str field_names sample_trace
          device_data0)).2 ∧
  run strict_float strict_int strict_str field_names sample_trace device_data0
    !! "esp32_01" = Some (ready_info sample_payload 10%float) ∧
  response_status
    (get_latest "esp32_01" 1000%float
       (run strict_float strict_int strict_str field_names sample_trace
          device_data0)).1 = Some "stale".
Proof.
  split; [exact sample_trace_listed |]. split; [exact sample_trace_entry |].
  exact (poll_agrees_with_listing strict_float strict_int strict_str
           field_names sample_trace "esp32_01" 1000%float 1000%float
           (device_summary 1000%float
              ("esp32_01", ready_info sample_payload 10%float))
           (ready_info sample_payload 10%float)
           sample_trace_listed eq_refl sample_trace_entry).
Defined.

Lemma battery_not_declared :
  "battery" ∉ ["hr"; "spo2"; "ecg"; "rest_ecg"; "timestamp"].
Proof.
  rewrite !not_elem_of_cons. repeat split; try discriminate.
  apply not_elem_of_nil.
Defined.

Lemma validate_ignores_other_keys_witness :
  ("battery" ∉ ["hr"; "spo2"; "ecg"; "rest_ecg"; "timestamp"]) ∧
  ECGData_validate strict_float strict_int strict_str
    (<["battery" := JInt 90]> sample_payload) = inr sample_ecg.
Proof.
  split; [exact battery_not_declared |].
  rewrite (proj1 (validate_ignores_other_keys strict_float strict_int
                    strict_str field_names sample_payload "battery" (JInt 90)
                    "esp32_01" 0%float device_data0 battery_not_declared)).
  exact sample_payload_valid.
Defined.

Lemma validate_defaults_witness :
  ECGData_validate strict_float strict_int strict_str sample_payload
    = inr sample_ecg ∧
  sample_payload !! "rest_ecg" = None ∧
  rest_ecg sample_ecg = Some 0%Z.
Proof.
  split; [exact sample_payload_valid |]. split; [reflexivity |].
  exact (proj1 (validate_defaults strict_float strict_int strict_str
                  sample_payload sample_ecg sample_payload_valid) eq_refl).
Defined.

Lemma infinite_payload_valid :
  ECGData_validate strict_float strict_int strict_str infinite_payload
  = inr infinite_ecg.
Proof. vm_compute. reflexivity. Defined.


Lemma null_rest_ecg_breaks_features_witness :
  ECGData_validate strict_float strict_int strict_str null_rest_payload
    = inr null_rest_ecg ∧
  null_rest_payload !! "rest_ecg" = Some JNull ∧
  PrimFloat.ltb stale_after (20 - 10) = false ∧
  prepare_features 25 "M"
    (get_latest "esp32_01" 20%float
       (receive_data strict_float strict_int strict_str field_names
          "esp32_01" null_rest_payload 10%float device_data0).2).1
  = None.
Proof.
  split; [exact null_rest_payload_valid |]. split; [reflexivity |].
  split; [reflexivity |].
  exact (proj2 (proj2
    (null_rest_ecg_breaks_features strict_float strict_int strict_str
       field_names "esp32_01" null_rest_payload 10%float 20%float device_data0
       null_rest_ecg 25%Z "M" null_rest_payload_valid eq_refl eq_refl))).
Defined.

Lemma prepare_features_sample :
  prepare_features 25 "M" sample_payload
  = Some {| feat_age := PInt 29; feat_sex := 1;
            feat_thalach := PFloat 72; feat_restecg := PInt 0 |}.
Proof. vm_compute. reflexivity. Defined.

Lemma prepare_features_in_range_witness :
  prepare_features 25 "M" sample_payload
  = Some {| feat_age := PInt 29; feat_sex := 1;
            feat_thalach := PFloat 72; feat_restecg := PInt 0 |} ∧
  num_le (PInt 71) (PFloat 72) = true ∧ num_le (PFloat 72) (PInt 202) = true.
Proof.
  split; [exact prepare_features_sample |].
  pose proof (prepare_features_in_range 25 "M" sample_payload _
                prepare_features_sample) as H.
  simpl in H. destruct H as (_ & _ & _ & H1 & H2 & _). by split.
Defined.

Lemma prepare_features_keeps_witness :
  (29 ≤ 40 ≤ 77)%Z ∧
  sample_payload !! "hr" = Some (JFloat 72) ∧
  PrimFloat.ltb 71 72 = true ∧ PrimFloat.leb 72 202 = true ∧
  get_or_zero sample_payload "rest_ecg" = JInt 0 ∧ (0 ≤ 0 ≤ 2)%Z ∧
  ∃ hr_num,
    prepare_features 40 "F" sample_payload
    = Some {| feat_age := PInt 40; feat_sex := 0;
              feat_thalach := hr_num; feat_restecg := PInt 0 |}.
Proof.
  assert (Hage : (29 ≤ 40 ≤ 77)%Z) by lia.
  assert (Hr : (0 ≤ 0 ≤ 2)%Z) by lia.
  split; [exact Hage |]. split; [reflexivity |]. split; [reflexivity |].
  split; [reflexivity |]. split; [reflexivity |]. split; [exact Hr |].
  destruct (prepare_features_keeps 40 "F" sample_payload (JFloat 72) 0
              Hage eq_refl
              (or_intror (ex_intro _ 72%float
                            (conj eq_refl (conj eq_refl eq_refl))))
              eq_refl Hr) as (hr_num & _ & Hf & _).
  exists hr_num. exact Hf.
Defined.

Lemma restecg_decided_by_sample_witness :
  [1; 2; 1]%float ≠ [] ∧
  ∃ v, v ∈ [1; 2; 1]%float ∧
       process_ecg_to_restecg sum_left [1; 2; 1]%float
       = Some (category (PrimFloat.abs (z_score sum_left [1; 2; 1]%float v))).
Proof.
  assert (Hne : [1; 2; 1]%float ≠ []) by discriminate.
  split; [exact Hne |].
  exact (restecg_decided_by_sample sum_left [1; 2; 1]%float Hne).
Defined.
